(** * Terminal widget of aiwindows-client: a shallow embedding

    Source: [src/aiwindows_client/ui/terminal_widget.py].

    The three classes of the file ([ConPTYReader], [WindowsTerminalCanvas],
    [TerminalTabWidget]) are embedded as Rocq modules of the same names.
    Methods that mutate [self], the module-level [logger] or the objects
    they hold are computations of a state-and-exception monad whose state
    survives a raised exception, as the fields of a Python object do.

    The collaborators that are not part of the repository (winpty's
    [PtyProcess], pyte's [Screen]/[Stream], Qt's painter and key events,
    Python's [bytes.decode]) are modelled at the interface the source uses
    them through; each model says so where it is declared. *)

From Stdlib Require Import ZArith List String Ascii Bool Lia DecimalString.
Import ListNotations.

Local Open Scope string_scope.
Local Open Scope list_scope.
Local Open Scope Z_scope.

Set Implicit Arguments.

(* ===================================================================== *)
(** ** Python values, exceptions and the method monad *)
(* ===================================================================== *)

(** An instance of Python's [Exception]: its class name and [str(e)]. *)
Inductive exn : Type :=
| Exception (cls : string) (msg : string).

Definition exn_str (e : exn) : string :=
  match e with Exception _ msg => msg end.

Inductive result (A : Type) : Type :=
| Ok (a : A)
| Raise (e : exn).

Arguments Ok {A} a.
Arguments Raise {A} e.

(** A method body: reads and writes a state [S]; ends with a value or with
    a raised exception.  Whatever was written before a [raise] stays
    written. *)
Definition M (S A : Type) : Type := S -> result A * S.

Section MethodMonad.
Context {S : Type}.

Definition ret {A} (a : A) : M S A := fun s => (Ok a, s).

Definition bind {A B} (m : M S A) (k : A -> M S B) : M S B :=
  fun s =>
    match m s with
    | (Ok a, s') => k a s'
    | (Raise e, s') => (Raise e, s')
    end.

Definition raise {A} (e : exn) : M S A := fun s => (Raise e, s).

(** [try: body except Exception as e: handler e] *)
Definition try_except {A} (body : M S A) (handler : exn -> M S A) : M S A :=
  fun s =>
    match body s with
    | (Ok a, s') => (Ok a, s')
    | (Raise e, s') => handler e s'
    end.

Definition gets {A} (f : S -> A) : M S A := fun s => (Ok (f s), s).

Definition modify (f : S -> S) : M S unit := fun s => (Ok tt, f s).

(** [if c: body] with nothing after it in the branch. *)
Definition when (c : bool) (body : M S unit) : M S unit :=
  if c then body else ret tt.
End MethodMonad.

Declare Scope method_scope.
Delimit Scope method_scope with method.
Notation "x <- m ;; k" := (bind m (fun x => k))
  (at level 61, m at next level, right associativity) : method_scope.
Notation "m ;; k" := (bind m (fun _ => k))
  (at level 61, right associativity) : method_scope.
Local Open Scope method_scope.

(** One-character string from its code, for control characters. *)
Definition chr (n : nat) : string := String (ascii_of_nat n) EmptyString.

Definition ESC : string := chr 27.

(** Truthiness of a Python [str]: non-empty. *)
Definition str_truthy (s : string) : bool :=
  match s with EmptyString => false | String _ _ => true end.

(** Truthiness of a Python [int]: non-zero. *)
Definition int_truthy (z : Z) : bool := negb (z =? 0).

(** [a // b] on Python ints: floor division, [ZeroDivisionError] on 0. *)
Definition py_floordiv (a b : Z) : result Z :=
  if b =? 0 then Raise (Exception "ZeroDivisionError" "integer division or modulo by zero")
  else Ok (a / b).

(** [l[i]] on a Python list: negative indices count from the end,
    [IndexError] outside [-len, len). *)
Definition py_index {A} (l : list A) (i : Z) : result A :=
  let n := Z.of_nat (List.length l) in
  let j := if i <? 0 then i + n else i in
  if (j <? 0) || (n <=? j) then Raise (Exception "IndexError" "list index out of range")
  else match nth_error l (Z.to_nat j) with
       | Some a => Ok a
       | None => Raise (Exception "IndexError" "list index out of range")
       end.

(** [l[n] = v] for an index inside the list. *)
Fixpoint list_set {A} (n : nat) (v : A) (l : list A) : list A :=
  match l, n with
  | [], _ => []
  | _ :: t, O => v :: t
  | h :: t, S n' => h :: list_set n' v t
  end.

(** [l[start:]] on a Python list. *)
Definition py_slice_from {A} (l : list A) (start : Z) : list A :=
  let n := Z.of_nat (List.length l) in
  let s := if start <? 0 then Z.max 0 (start + n) else Z.min start n in
  skipn (Z.to_nat s) l.

(* ===================================================================== *)
(** ** The module-level logger *)
(* ===================================================================== *)

Inductive Level : Type := ERROR | INFO.

Definition LogRecord : Type := (Level * string)%type.

(* ===================================================================== *)
(** ** winpty's PtyProcess (external) *)
(* ===================================================================== *)

(** Model of the [winpty.PtyProcess] object at the interface the widget
    uses: [spawn], [isalive], [write], [read], [setwinsize], [terminate],
    [exitstatus].  [written] is what the child has received, [pending] is
    the output the child has produced and nobody has read yet.  The two
    [_error] fields say how the operating system answers the next [write]
    and [setwinsize] of a live process ([None]: it succeeds). *)
Module PtyProcess.

Record t : Type := mk {
  argv : list string;
  cwd : string;
  dimensions : Z * Z;            (* (rows, cols) *)
  alive : bool;
  exitstatus : option Z;
  written : list string;
  pending : list string;
  write_error : option exn;
  setwinsize_error : option exn
}.

Definition isalive (p : t) : bool := alive p.

Definition spawn (argv0 : list string) (cwd0 : string) (dims : Z * Z) : t :=
  {| argv := argv0; cwd := cwd0; dimensions := dims; alive := true;
     exitstatus := None; written := []; pending := [];
     write_error := None; setwinsize_error := None |}.

Definition receive (data : string) (p : t) : t :=
  {| argv := argv p; cwd := cwd p; dimensions := dimensions p;
     alive := alive p; exitstatus := exitstatus p;
     written := written p ++ [data]; pending := pending p;
     write_error := write_error p;
     setwinsize_error := setwinsize_error p |}.

(** [write] on a closed pty raises; on a live one it delivers the data
    unless the system call fails. *)
Definition write (data : string) (p : t) : result t :=
  if negb (alive p) then Raise (Exception "EOFError" "Pty is closed")
  else match write_error p with
       | Some e => Raise e
       | None => Ok (receive data p)
       end.

Definition with_dimensions (dims : Z * Z) (p : t) : t :=
  {| argv := argv p; cwd := cwd p; dimensions := dims;
     alive := alive p; exitstatus := exitstatus p;
     written := written p; pending := pending p;
     write_error := write_error p;
     setwinsize_error := setwinsize_error p |}.

Definition setwinsize (rows cols : Z) (p : t) : result t :=
  match setwinsize_error p with
  | Some e => Raise e
  | None => Ok (with_dimensions (rows, cols) p)
  end.

(** [terminate(force=True)]: the process is gone afterwards; a process
    killed this way reports no exit status of its own. *)
Definition terminate (p : t) : t :=
  {| argv := argv p; cwd := cwd p; dimensions := dimensions p;
     alive := false; exitstatus := exitstatus p;
     written := written p; pending := pending p;
     write_error := write_error p;
     setwinsize_error := setwinsize_error p |}.

Definition with_pending (q : list string) (p : t) : t :=
  {| argv := argv p; cwd := cwd p; dimensions := dimensions p;
     alive := alive p; exitstatus := exitstatus p;
     written := written p; pending := q;
     write_error := write_error p;
     setwinsize_error := setwinsize_error p |}.

(** [read(size)]: the next output of the child, at most [size]
    characters of it.  With nothing to read the call blocks while the
    process lives ([None]: the call has not returned) and raises
    [EOFError] once it is gone. *)
Definition read (size : Z) (p : t) : option (result string * t) :=
  match pending p with
  | d :: q =>
      let n := Z.to_nat size in
      let rest := String.substring n (String.length d - n) d in
      Some (Ok (String.substring 0 n d),
            with_pending (match rest with
                          | EmptyString => q
                          | _ => rest :: q
                          end) p)
  | [] =>
      if alive p then None
      else Some (Raise (Exception "EOFError" "Pty is closed"), p)
  end.

End PtyProcess.

(* ===================================================================== *)
(** ** pyte's Screen and Stream (external) *)
(* ===================================================================== *)

(** A value of a colour attribute as the canvas inspects it: the source
    tests [isinstance(fg, int)] and compares with the string
    ["default"], so both kinds of value are kept apart. *)
Inductive pyval : Type :=
| PyInt (z : Z)
| PyStr (s : string).

Definition pyval_eqb_str (v : pyval) (s : string) : bool :=
  match v with
  | PyStr t => String.eqb t s
  | PyInt _ => false
  end.

(** A Python dict with int keys, as its items in insertion order.
    Storing under a key that is there keeps its place; a new key goes to
    the end. *)
Fixpoint py_dict_get {V} (k : Z) (d : list (Z * V)) : option V :=
  match d with
  | [] => None
  | (k', v) :: d' => if k =? k' then Some v else py_dict_get k d'
  end.

Fixpoint py_dict_set {V} (k : Z) (v : V) (d : list (Z * V)) : list (Z * V) :=
  match d with
  | [] => [(k, v)]
  | (k', v') :: d' =>
      if k =? k' then (k, v) :: d' else (k', v') :: py_dict_set k v d'
  end.

(** [d.pop(k, None)] *)
Fixpoint py_dict_pop {V} (k : Z) (d : list (Z * V)) : list (Z * V) :=
  match d with
  | [] => []
  | (k', v') :: d' =>
      if k =? k' then d' else (k', v') :: py_dict_pop k d'
  end.

(** [range(a, b)] *)
Definition py_range (a b : Z) : list Z :=
  map (fun i => a + Z.of_nat i) (seq 0 (Z.to_nat (b - a))).

(** Model of the part of the [pyte] library (0.8) the canvas drives:
    [Screen(columns, lines)], [Screen.resize], [Stream.feed], and the
    attributes the canvas reads ([buffer], [cursor], [Char.data/fg/bg]).

    As in pyte, [Screen.buffer] is sparse: a dict from row index to a
    dict from column index to [Char], empty on a new screen; a row comes
    into being when it is first touched.  Colours are names:
    [select_graphic_rendition] stores ["red"] for code 31.

    The interpreter is a fragment: printable ASCII, NUL, DEL and the
    controls BEL BS HT LF VT FF CR SI, OSC strings (consumed), charset
    designations that leave G0 as it is, and Select Graphic Rendition
    with the 8 + 8 named colours.  Anything else (other CSI and ESC
    commands, extended colours, SO and the remaining controls, characters
    outside ASCII) parks the parser in [Unmodelled]; from there on the
    model says nothing about what pyte does. *)
Module pyte.

Record Char : Type := mkChar {
  data : string;
  fg : pyval;
  bg : pyval
}.

Definition default_char : Char :=
  {| data := " "; fg := PyStr "default"; bg := PyStr "default" |}.

Record Cursor : Type := mkCursor {
  x : Z;
  y : Z;
  attrs : Char
}.

Definition Line : Type := list (Z * Char).

Record Screen : Type := mkScreen {
  columns : Z;
  lines : Z;
  buffer : list (Z * Line);
  cursor : Cursor;
  tabstops : list Z
}.

(** [range(8, ncols, 8)], the tab stops [reset] sets. *)
Definition default_tabstops (ncols : Z) : list Z :=
  map (fun i => 8 + 8 * Z.of_nat i) (seq 0 (Z.to_nat ((ncols - 1) / 8))).

(** [pyte.Screen(columns, lines)] *)
Definition new_screen (ncols nlines : Z) : Screen :=
  {| columns := ncols; lines := nlines; buffer := [];
     cursor := {| x := 0; y := 0; attrs := default_char |};
     tabstops := default_tabstops ncols |}.

Definition with_cursor (c : Cursor) (s : Screen) : Screen :=
  {| columns := columns s; lines := lines s; buffer := buffer s;
     cursor := c; tabstops := tabstops s |}.

Definition with_buffer (b : list (Z * Line)) (s : Screen) : Screen :=
  {| columns := columns s; lines := lines s; buffer := b;
     cursor := cursor s; tabstops := tabstops s |}.

Definition move_to (nx ny : Z) (s : Screen) : Screen :=
  with_cursor {| x := nx; y := ny; attrs := attrs (cursor s) |} s.

(** [self.buffer[row]] on the defaultdict: the row, made on the spot when
    it is not there. *)
Definition touch_row (row : Z) (b : list (Z * Line)) : list (Z * Line) :=
  match py_dict_get row b with
  | Some _ => b
  | None => py_dict_set row [] b
  end.

Definition row_of (row : Z) (b : list (Z * Line)) : Line :=
  match py_dict_get row b with
  | Some line => line
  | None => []
  end.

(** [self.buffer[row][col] = c] *)
Definition set_cell (row col : Z) (c : Char) (b : list (Z * Line))
  : list (Z * Line) :=
  py_dict_set row (py_dict_set col c (row_of row b)) (touch_row row b).

Definition carriage_return (s : Screen) : Screen :=
  move_to 0 (y (cursor s)) s.

(** One pass of the loop of [index]: [buffer[y] = buffer[y + 1]]. *)
Definition shift_up (b : list (Z * Line)) (row : Z) : list (Z * Line) :=
  let b1 := touch_row (row + 1) b in
  py_dict_set row (row_of (row + 1) b1) b1.

(** [index]: one line down, scrolling the buffer up at the bottom. *)
Definition index (s : Screen) : Screen :=
  let bottom := lines s - 1 in
  if y (cursor s) =? bottom
  then with_buffer
         (py_dict_pop bottom (fold_left shift_up (py_range 0 bottom) (buffer s))) s
  else move_to (x (cursor s)) (Z.min (y (cursor s) + 1) bottom) s.

Definition linefeed (s : Screen) : Screen := index s.

Definition backspace (s : Screen) : Screen :=
  let cx := if x (cursor s) =? columns s then x (cursor s) - 1
            else x (cursor s) in
  move_to (Z.min (Z.max 0 (cx - 1)) (columns s - 1)) (y (cursor s)) s.

(** [tab]: to the first tab stop right of the cursor, to the last
    column when there is none. *)
Definition tab (s : Screen) : Screen :=
  let column := match find (fun stop => x (cursor s) <? stop) (tabstops s) with
                | Some stop => stop
                | None => columns s - 1
                end in
  move_to column (y (cursor s)) s.

(** [draw] of one character of width one, auto-wrap on. *)
Definition draw (ch : string) (s : Screen) : Screen :=
  let s1 := if x (cursor s) =? columns s
            then linefeed (carriage_return s) else s in
  let cur := cursor s1 in
  let cell := {| data := ch; fg := fg (attrs cur); bg := bg (attrs cur) |} in
  let s2 := with_buffer (set_cell (y cur) (x cur) cell (buffer s1)) s1 in
  move_to (Z.min (x cur + 1) (columns s2)) (y cur) s2.

Definition colour_name (n : Z) : string :=
  if n =? 0 then "black" else if n =? 1 then "red"
  else if n =? 2 then "green" else if n =? 3 then "brown"
  else if n =? 4 then "blue" else if n =? 5 then "magenta"
  else if n =? 6 then "cyan" else "white".

Definition with_attrs (a : Char) (s : Screen) : Screen :=
  with_cursor {| x := x (cursor s); y := y (cursor s); attrs := a |} s.

Definition set_fg (v : pyval) (s : Screen) : Screen :=
  let a := attrs (cursor s) in
  with_attrs {| data := data a; fg := v; bg := bg a |} s.

Definition set_bg (v : pyval) (s : Screen) : Screen :=
  let a := attrs (cursor s) in
  with_attrs {| data := data a; fg := fg a; bg := v |} s.

(** One attribute code of [select_graphic_rendition]; [None] for the
    extended colours, which the fragment leaves out.  Codes that only
    switch bold, underline and the like change nothing the canvas
    reads. *)
Definition sgr_attr (attr : Z) (s : Screen) : option Screen :=
  if attr =? 0 then Some (with_attrs default_char s)
  else if (30 <=? attr) && (attr <=? 37)
       then Some (set_fg (PyStr (colour_name (attr - 30))) s)
  else if attr =? 39 then Some (set_fg (PyStr "default") s)
  else if (40 <=? attr) && (attr <=? 47)
       then Some (set_bg (PyStr (colour_name (attr - 40))) s)
  else if attr =? 49 then Some (set_bg (PyStr "default") s)
  else if (90 <=? attr) && (attr <=? 97)
       then Some (set_fg (PyStr (String.append "bright" (colour_name (attr - 90)))) s)
  else if (100 <=? attr) && (attr <=? 107)
       then Some (set_bg (PyStr (String.append "bright" (colour_name (attr - 100)))) s)
  else if (attr =? 38) || (attr =? 48) then None
  else Some s.

Fixpoint sgr_attrs (attrs0 : list Z) (s : Screen) : option Screen :=
  match attrs0 with
  | [] => Some s
  | a :: attrs' =>
      match sgr_attr a s with
      | Some s' => sgr_attrs attrs' s'
      | None => None
      end
  end.

Definition select_graphic_rendition (attrs0 : list Z) (s : Screen)
  : option Screen :=
  match attrs0 with
  | [] => sgr_attr 0 s
  | _ => sgr_attrs attrs0 s
  end.

(** One pass of the loop of [delete_lines(count)] with the cursor on
    row 0: a row [count] below moves up if it is there, rows with nothing
    [count] below them inside the screen are dropped. *)
Definition delete_line_step (count bottom : Z) (b : list (Z * Line)) (row : Z)
  : list (Z * Line) :=
  if row + count <=? bottom then
    match py_dict_get (row + count) b with
    | Some line => py_dict_set row line (py_dict_pop (row + count) b)
    | None => b
    end
  else py_dict_pop row b.

(** The cells of a line left of [ncols], and those right of the old
    width. *)
Definition cut_line (ncols old_cols : Z) (line : Line) : Line :=
  filter (fun cell => negb ((ncols <=? fst cell) && (fst cell <? old_cols))) line.

(** [Screen.resize(lines, columns)].  Fewer lines: the cursor is saved,
    [delete_lines] takes the surplus off the top, the cursor is restored
    and brought into the old bounds.  Fewer columns: the cells beyond are
    popped.  The cursor is not brought into the new bounds and the tab
    stops stay those of the old width. *)
Definition resize (nlines ncols : Z) (s : Screen) : Screen :=
  let nlines := if nlines =? 0 then lines s else nlines in
  let ncols := if ncols =? 0 then columns s else ncols in
  if (nlines =? lines s) && (ncols =? columns s) then s
  else
    let bottom := lines s - 1 in
    let shrink := nlines <? lines s in
    let cur := if shrink
               then {| x := Z.min (Z.max 0 (x (cursor s))) (columns s - 1);
                       y := Z.min (Z.max 0 (y (cursor s))) bottom;
                       attrs := attrs (cursor s) |}
               else cursor s in
    let rows0 := if shrink && (0 <=? bottom)
                 then fold_left (delete_line_step (lines s - nlines) bottom)
                        (py_range 0 (bottom + 1)) (buffer s)
                 else buffer s in
    let rows1 := if ncols <? columns s
                 then map (fun item => (fst item, cut_line ncols (columns s) (snd item))) rows0
                 else rows0 in
    {| columns := ncols; lines := nlines; buffer := rows1; cursor := cur;
       tabstops := tabstops s |}.

(** State of the [Stream] parser between two characters. *)
Inductive Parser : Type :=
| Ground
| Escape
| EscapeArg                       (* one more character is consumed *)
| CharsetG0                       (* ESC ( : the code of the charset *)
| Csi (params : list Z) (current : Z) (private : bool)
| OscCode
| OscParam
| OscEscape
| Unmodelled.

Record Stream : Type := mkStream { parser : Parser }.

Definition ord (ch : string) : Z :=
  match ch with
  | String a EmptyString => Z.of_nat (nat_of_ascii a)
  | _ => 1114112                  (* a character outside ASCII *)
  end.

(** BEL BS HT LF VT FF CR and SI; the charset is never shifted out in
    the fragment, so SI changes nothing. *)
Definition basic (c : Z) (s : Screen) : Screen :=
  if c =? 8 then backspace s
  else if c =? 9 then tab s
  else if (c =? 10) || (c =? 11) || (c =? 12) then linefeed s
  else if c =? 13 then carriage_return s
  else s.

Definition is_basic (c : Z) : bool := (7 <=? c) && (c <=? 15).

Definition is_digit (c : Z) : bool := (48 <=? c) && (c <=? 57).

Definition csi_dispatch (final : Z) (params : list Z) (private : bool)
    (s : Screen) : option Screen :=
  if (final =? 109) && negb private       (* 'm' *)
  then select_graphic_rendition params s
  else None.

Definition feed_char (ch : string) (st : Parser * Screen) : Parser * Screen :=
  let '(p, s) := st in
  let c := ord ch in
  match p with
  | Ground =>
      if c =? 27 then (Escape, s)
      else if c =? 14 then (Unmodelled, s)                 (* SO *)
      else if is_basic c then (Ground, basic c s)
      else if (c =? 0) || (c =? 127) then (Ground, s)      (* NUL DEL *)
      else if (32 <=? c) && (c <? 127) then (Ground, draw ch s)
      else (Unmodelled, s)
  | Escape =>
      if c =? 91 then (Csi [] 0 false, s)                 (* '[' *)
      else if c =? 93 then (OscCode, s)                    (* ']' *)
      else if c =? 40 then (CharsetG0, s)                  (* '(' *)
      else if c =? 41 then (EscapeArg, s)                  (* ')' *)
      else (Unmodelled, s)
  | EscapeArg => (Ground, s)
  | CharsetG0 =>
      (* "0", "U" and "V" put another map on G0 *)
      if (c =? 48) || (c =? 85) || (c =? 86) then (Unmodelled, s)
      else (Ground, s)
  | Csi params current private =>
      if c =? 63 then (Csi params current true, s)         (* '?' *)
      else if (7 <=? c) && (c <=? 13) then (Csi params current private, basic c s)
      else if (c =? 32) || (c =? 62) then (Csi params current private, s)
      else if (c =? 24) || (c =? 26) then (Ground, s)      (* CAN SUB *)
      else if is_digit c then (Csi params (current * 10 + (c - 48)) private, s)
      else if c =? 36 then (EscapeArg, s)                  (* '$' *)
      else
        let params' := params ++ [Z.min current 9999] in
        if c =? 59 then (Csi params' 0 private, s)         (* ';' *)
        else match csi_dispatch c params' private s with
             | Some s' => (Ground, s')
             | None => (Unmodelled, s)
             end
  | OscCode =>
      if (c =? 82) || (c =? 80) then (Ground, s)           (* R P *)
      else if c <? 128 then (OscParam, s)
      else (Unmodelled, s)
  | OscParam =>
      if c =? 27 then (OscEscape, s)
      else if c =? 7 then (Ground, s)
      else if c <? 128 then (OscParam, s)
      else (Unmodelled, s)
  | OscEscape =>
      if c =? 92 then (Ground, s)
      else if c <? 128 then (OscParam, s)
      else (Unmodelled, s)
  | Unmodelled => (Unmodelled, s)
  end.

Definition is_continuation (a : ascii) : bool :=
  let n := Z.of_nat (nat_of_ascii a) in (128 <=? n) && (n <? 192).

(** The characters of a text held in UTF-8: a character is a byte
    that is no continuation byte, with the continuation bytes after
    it. *)
Fixpoint chars (text : string) : list string :=
  match text with
  | EmptyString => []
  | String a rest =>
      match chars rest with
      | String b h :: t =>
          if is_continuation b then String a (String b h) :: t
          else String a EmptyString :: String b h :: t
      | other => String a EmptyString :: other
      end
  end.

(** [Stream.feed(text)] on the screen the stream is attached to. *)
Definition feed (text : string) (st : Stream * Screen) : Stream * Screen :=
  let '(p, s) := fold_left (fun acc ch => feed_char ch acc) (chars text)
                   (parser (fst st), snd st) in
  ({| parser := p |}, s).

End pyte.

(* ===================================================================== *)
(** ** Python's bytes.decode("utf-8", errors="replace") and str helpers *)
(* ===================================================================== *)

(** [bytes] and [str] are both held as a Rocq [string]: a [bytes] value
    is its bytes, a [str] value is its UTF-8 encoding.  [str.encode()]
    is then the identity and decoding is the function below. *)

Definition byte_val (a : ascii) : Z := Z.of_nat (nat_of_ascii a).

Definition is_cont (a : ascii) : bool :=
  (128 <=? byte_val a) && (byte_val a <? 192).

(** U+FFFD in UTF-8. *)
Definition REPLACEMENT : string :=
  String (ascii_of_nat 239) (String (ascii_of_nat 191) (chr 189)).

(** Second byte of a three-byte sequence: E0 needs A0..BF (no overlong
    form), ED needs 80..9F (no surrogate). *)
Definition second_of_3 (lead : Z) (a : ascii) : bool :=
  is_cont a &&
  negb (if byte_val a <? 160 then lead =? 224 else lead =? 237).

(** Second byte of a four-byte sequence: F0 needs 90..BF, F4 needs
    80..8F. *)
Definition second_of_4 (lead : Z) (a : ascii) : bool :=
  is_cont a &&
  negb (if byte_val a <? 144 then lead =? 240 else lead =? 244).

(** The decoder never fails: an invalid start byte, a sequence broken off
    by a byte that cannot continue it, and a sequence cut by the end of
    the data each become one U+FFFD, and decoding goes on at the first
    byte not consumed. *)
Fixpoint decode_utf8_replace (bs : string) : string :=
  match bs with
  | EmptyString => EmptyString
  | String a r =>
      let b := byte_val a in
      if b <? 128 then String a (decode_utf8_replace r)
      else if b <? 194 then String.append REPLACEMENT (decode_utf8_replace r)
      else if b <? 224 then
        match r with
        | EmptyString => REPLACEMENT
        | String a2 r2 =>
            if is_cont a2 then String a (String a2 (decode_utf8_replace r2))
            else String.append REPLACEMENT (decode_utf8_replace r)
        end
      else if b <? 240 then
        match r with
        | EmptyString => REPLACEMENT
        | String a2 r2 =>
            if second_of_3 b a2 then
              match r2 with
              | EmptyString => REPLACEMENT
              | String a3 r3 =>
                  if is_cont a3
                  then String a (String a2 (String a3 (decode_utf8_replace r3)))
                  else String.append REPLACEMENT (decode_utf8_replace r2)
              end
            else String.append REPLACEMENT (decode_utf8_replace r)
        end
      else if b <? 245 then
        match r with
        | EmptyString => REPLACEMENT
        | String a2 r2 =>
            if second_of_4 b a2 then
              match r2 with
              | EmptyString => REPLACEMENT
              | String a3 r3 =>
                  if is_cont a3 then
                    match r3 with
                    | EmptyString => REPLACEMENT
                    | String a4 r4 =>
                        if is_cont a4
                        then String a (String a2 (String a3 (String a4
                               (decode_utf8_replace r4))))
                        else String.append REPLACEMENT (decode_utf8_replace r3)
                    end
                  else String.append REPLACEMENT (decode_utf8_replace r2)
              end
            else String.append REPLACEMENT (decode_utf8_replace r)
        end
      else String.append REPLACEMENT (decode_utf8_replace r)
  end.

(** The code point of one character held in UTF-8; -1 for bytes that
    are no character. *)
Definition code_point (ch : string) : Z :=
  match ch with
  | String a EmptyString => if byte_val a <? 128 then byte_val a else -1
  | String a (String b EmptyString) =>
      (byte_val a - 192) * 64 + (byte_val b - 128)
  | String a (String b (String c EmptyString)) =>
      (byte_val a - 224) * 4096 + (byte_val b - 128) * 64 + (byte_val c - 128)
  | String a (String b (String c (String d EmptyString))) =>
      (byte_val a - 240) * 262144 + (byte_val b - 128) * 4096
      + (byte_val c - 128) * 64 + (byte_val d - 128)
  | _ => -1
  end.

(** [str.isspace()] of one character: Unicode white space. *)
Definition isspace (cp : Z) : bool :=
  ((9 <=? cp) && (cp <=? 13)) || ((28 <=? cp) && (cp <=? 32))
  || (cp =? 133) || (cp =? 160) || (cp =? 5760)
  || ((8192 <=? cp) && (cp <=? 8202))
  || (cp =? 8232) || (cp =? 8233) || (cp =? 8239) || (cp =? 8287)
  || (cp =? 12288).

Fixpoint drop_spaces (rev_chars : list string) : list string :=
  match rev_chars with
  | [] => []
  | ch :: rest => if isspace (code_point ch) then drop_spaces rest else rev_chars
  end.

(** [str.rstrip()]: the text without the white space at its end. *)
Definition rstrip (s : string) : string :=
  fold_right String.append EmptyString
    (rev (drop_spaces (rev (pyte.chars s)))).

(** [str.lower()] on the ASCII letters. *)
Definition lower_ascii (a : ascii) : ascii :=
  let b := nat_of_ascii a in
  if (65 <=? b)%nat && (b <=? 90)%nat then ascii_of_nat (b + 32) else a.

Fixpoint lower (s : string) : string :=
  match s with
  | EmptyString => EmptyString
  | String a r => String (lower_ascii a) (lower r)
  end.

(** [needle in haystack] on [str]. *)
Fixpoint str_contains (needle haystack : string) : bool :=
  String.prefix needle haystack ||
  match haystack with
  | EmptyString => false
  | String _ r => str_contains needle r
  end.

(** [str(n)] for a Python int. *)
Definition str_of_int (n : Z) : string :=
  NilZero.string_of_int (Z.to_int n).

(* ===================================================================== *)
(** ** Module-level state *)
(* ===================================================================== *)

(** What the module and its process hold outside any widget: the two
    import flags, the records the [logger] has taken, and the answers of
    the host the constructors and [start] ask for ([Path.home()], the font
    metrics of the two candidate fonts as (advance of "W", height), and
    whether [PtyProcess.spawn] raises). *)
Record Globals : Type := mkGlobals {
  HAS_WINPTY : bool;
  HAS_PYTE : bool;
  logger : list LogRecord;
  spawn_error : option exn;
  home : string;
  cascadia_metrics : Z * Z;
  consolas_metrics : Z * Z
}.

Definition log_record (r : LogRecord) (g : Globals) : Globals :=
  {| HAS_WINPTY := HAS_WINPTY g; HAS_PYTE := HAS_PYTE g;
     logger := logger g ++ [r];
     spawn_error := spawn_error g; home := home g;
     cascadia_metrics := cascadia_metrics g;
     consolas_metrics := consolas_metrics g |}.

(** [result] as a computation of any state. *)
Definition lift {S A} (r : result A) : M S A := fun s => (r, s).

(* ===================================================================== *)
(** ** class ConPTYReader(QThread) *)
(* ===================================================================== *)

Module ConPTYReader.

(** The object, as the GUI thread sees it.  [self.pty] is the very
    [PtyProcess] the canvas holds; it is kept once, in the canvas. *)
Record t : Type := mk { _running : bool }.

(** [__init__] *)
Definition init : t := {| _running := true |}.

(** [stop] *)
Definition stop (r : t) : t := {| _running := false |}.

Inductive Signal : Type :=
| data_ready (data : string)
| finished (exit_code : Z).

(** Where the thread executing [run] stands: about to evaluate the
    [while] condition, inside [self.pty.read(4096)], or past the final
    [finished.emit]. *)
Inductive Loc : Type := LoopTest | Reading | Returned.

(** The thread together with the two objects it shares with the GUI
    thread and the lists it appends to. *)
Record Thread : Type := mkThread {
  loc : Loc;
  me : t;
  pty : PtyProcess.t;
  emitted : list Signal;
  log : list LogRecord
}.

(** [self.pty.exitstatus or 0] *)
Definition exit_code_of (p : PtyProcess.t) : Z :=
  match PtyProcess.exitstatus p with
  | Some c => c
  | None => 0
  end.

(** One step of [run]: the loop test, or the completion of the read
    with what follows it up to the next loop test.  [None]: the thread
    cannot move, because [run] has returned or because the read has not
    returned. *)
Definition step (th : Thread) : option Thread :=
  match loc th with
  | LoopTest =>
      if _running (me th) && PtyProcess.isalive (pty th)
      then Some {| loc := Reading; me := me th; pty := pty th;
                   emitted := emitted th; log := log th |}
      else Some {| loc := Returned; me := me th; pty := pty th;
                   emitted := emitted th ++ [finished (exit_code_of (pty th))];
                   log := log th |}
  | Reading =>
      match PtyProcess.read 4096 (pty th) with
      | None => None
      | Some (Ok data, p') =>
          Some {| loc := LoopTest; me := me th; pty := p';
                  emitted := emitted th ++
                             (if str_truthy data then [data_ready data] else []);
                  log := log th |}
      | Some (Raise e, p') =>
          Some {| loc := Returned; me := me th; pty := p';
                  emitted := emitted th ++ [finished (exit_code_of p')];
                  log := log th ++
                         (if _running (me th)
                          then [(ERROR, String.append "ConPTY read error: " (exn_str e))]
                          else []) |}
      end
  | Returned => None
  end.

(** [n] steps, stopping where the thread cannot move. *)
Fixpoint run (n : nat) (th : Thread) : Thread :=
  match n with
  | O => th
  | S n' => match step th with
            | Some th' => run n' th'
            | None => th
            end
  end.

(** What the GUI thread does to the shared objects. *)
Definition request_stop (th : Thread) : Thread :=
  {| loc := loc th; me := stop (me th); pty := pty th;
     emitted := emitted th; log := log th |}.

Definition kill (th : Thread) : Thread :=
  {| loc := loc th; me := me th; pty := PtyProcess.terminate (pty th);
     emitted := emitted th; log := log th |}.

(** The thread [start()] launches on a reader. *)
Definition start (r : t) (p : PtyProcess.t) : Thread :=
  {| loc := LoopTest; me := r; pty := p; emitted := []; log := [] |}.

End ConPTYReader.

(* ===================================================================== *)
(** ** Qt: keys, key events and the painter (external) *)
(* ===================================================================== *)

(** [Qt.Key] and [Qt.KeyboardModifier] are integer enumerations; the
    values are Qt's. *)
Module Qt.
Definition Key_Escape : Z := 16777216.      (* 0x01000000 *)
Definition Key_Tab : Z := 16777217.
Definition Key_Backspace : Z := 16777219.
Definition Key_Return : Z := 16777220.
Definition Key_Enter : Z := 16777221.
Definition Key_Insert : Z := 16777222.
Definition Key_Delete : Z := 16777223.
Definition Key_Home : Z := 16777232.        (* 0x01000010 *)
Definition Key_End : Z := 16777233.
Definition Key_Left : Z := 16777234.
Definition Key_Up : Z := 16777235.
Definition Key_Right : Z := 16777236.
Definition Key_Down : Z := 16777237.
Definition Key_PageUp : Z := 16777238.
Definition Key_PageDown : Z := 16777239.
Definition Key_C : Z := 67.
Definition Key_D : Z := 68.
Definition Key_L : Z := 76.
Definition Key_Z : Z := 90.
Definition ControlModifier : Z := 67108864. (* 0x04000000 *)
End Qt.

(** What [keyPressEvent] reads off a [QKeyEvent]. *)
Record QKeyEvent : Type := mkKeyEvent {
  key : Z;
  modifiers : Z;
  text : string
}.

Inductive QColor : Type :=
| ColorName (name : string)
| ColorRgba (r g b a : Z).

(** The calls a [paintEvent] makes on its [QPainter], in order. *)
Inductive PaintOp : Type :=
| SetFont
| FillAll (c : QColor)                         (* fillRect(self.rect(), c) *)
| FillRect (x y w h : Z) (c : QColor)
| SetPen (c : QColor)
| DrawText (x y : Z) (s : string).

(* ===================================================================== *)
(** ** class WindowsTerminalCanvas(QWidget) *)
(* ===================================================================== *)

Module WindowsTerminalCanvas.

Definition COLORS_16 : list string :=
  [ "#0c0c0c"; "#c50f1f"; "#13a10e"; "#c19c00";
    "#0037da"; "#881798"; "#3a96dd"; "#cccccc";
    "#767676"; "#e74856"; "#16c60c"; "#f9f1a5";
    "#3b78ff"; "#b4009e"; "#61d6d6"; "#f2f2f2" ].

(** The object.  [wid] is its identity.  [emulator] holds [self.stream]
    and [self.screen] together: the stream writes to that very screen,
    and [__init__] sets both or neither.  [update_pending] records that
    [self.update()] asked for a repaint. *)
Record t : Type := mk {
  wid : nat;
  cols : Z;
  rows : Z;
  char_width : Z;
  char_height : Z;
  emulator : option (pyte.Stream * pyte.Screen);
  _buffer : list string;
  pty : option PtyProcess.t;
  reader : option ConPTYReader.t;
  working_dir : string;
  update_pending : bool
}.

Definition stream (c : t) : option pyte.Stream := option_map fst (emulator c).
Definition screen (c : t) : option pyte.Screen := option_map snd (emulator c).

(** [__init__(cols=120, rows=30, parent)] *)
Definition init (id : nat) (g : Globals) : t :=
  let cols0 := 120 in
  let rows0 := 30 in
  let metrics := if int_truthy (fst (cascadia_metrics g))
                 then cascadia_metrics g else consolas_metrics g in
  {| wid := id; cols := cols0; rows := rows0;
     char_width := fst metrics; char_height := snd metrics;
     emulator := if HAS_PYTE g
                 then Some (pyte.mkStream pyte.Ground, pyte.new_screen cols0 rows0)
                 else None;
     _buffer := [];
     pty := None; reader := None;
     working_dir := home g;
     update_pending := false |}.

Definition set_dims (ncols nrows : Z) (c : t) : t :=
  {| wid := wid c; cols := ncols; rows := nrows;
     char_width := char_width c; char_height := char_height c;
     emulator := emulator c; _buffer := _buffer c; pty := pty c;
     reader := reader c; working_dir := working_dir c;
     update_pending := update_pending c |}.

Definition set_emulator (e : option (pyte.Stream * pyte.Screen)) (c : t) : t :=
  {| wid := wid c; cols := cols c; rows := rows c;
     char_width := char_width c; char_height := char_height c;
     emulator := e; _buffer := _buffer c; pty := pty c;
     reader := reader c; working_dir := working_dir c;
     update_pending := update_pending c |}.

Definition set_buffer (b : list string) (c : t) : t :=
  {| wid := wid c; cols := cols c; rows := rows c;
     char_width := char_width c; char_height := char_height c;
     emulator := emulator c; _buffer := b; pty := pty c;
     reader := reader c; working_dir := working_dir c;
     update_pending := update_pending c |}.

Definition set_pty (p : option PtyProcess.t) (c : t) : t :=
  {| wid := wid c; cols := cols c; rows := rows c;
     char_width := char_width c; char_height := char_height c;
     emulator := emulator c; _buffer := _buffer c; pty := p;
     reader := reader c; working_dir := working_dir c;
     update_pending := update_pending c |}.

Definition set_reader (r : option ConPTYReader.t) (c : t) : t :=
  {| wid := wid c; cols := cols c; rows := rows c;
     char_width := char_width c; char_height := char_height c;
     emulator := emulator c; _buffer := _buffer c; pty := pty c;
     reader := r; working_dir := working_dir c;
     update_pending := update_pending c |}.

Definition set_working_dir (d : string) (c : t) : t :=
  {| wid := wid c; cols := cols c; rows := rows c;
     char_width := char_width c; char_height := char_height c;
     emulator := emulator c; _buffer := _buffer c; pty := pty c;
     reader := reader c; working_dir := d;
     update_pending := update_pending c |}.

Definition set_update_pending (b : bool) (c : t) : t :=
  {| wid := wid c; cols := cols c; rows := rows c;
     char_width := char_width c; char_height := char_height c;
     emulator := emulator c; _buffer := _buffer c; pty := pty c;
     reader := reader c; working_dir := working_dir c;
     update_pending := b |}.

(** The state a method runs in: the object and the module-level state. *)
Record St : Type := mkSt {
  self : t;
  glob : Globals
}.

Definition on_self (f : t -> t) : M St unit :=
  modify (fun s => {| self := f (self s); glob := glob s |}).

Definition logger_error (msg : string) : M St unit :=
  modify (fun s => {| self := self s; glob := log_record (ERROR, msg) (glob s) |}).

Definition logger_info (msg : string) : M St unit :=
  modify (fun s => {| self := self s; glob := log_record (INFO, msg) (glob s) |}).

(** [PtyProcess.spawn([shell], cwd=..., dimensions=...)] *)
Definition PtyProcess_spawn (argv : list string) (cwd : string) (dims : Z * Z)
  : M St PtyProcess.t :=
  fun s => match spawn_error (glob s) with
           | Some e => (Raise e, s)
           | None => (Ok (PtyProcess.spawn argv cwd dims), s)
           end.

(** [start(working_dir=None, shell=None)] *)
Definition start (working_dir0 : option string) (shell0 : option string)
  : M St unit :=
  has_winpty <- gets (fun s => HAS_WINPTY (glob s)) ;;
  if negb has_winpty
  then logger_error "winpty not installed! pip install pywinpty"
  else
    match working_dir0 with
    | Some d => when (str_truthy d) (on_self (set_working_dir d))
    | None => ret tt
    end ;;
    let shell := match shell0 with
                 | Some sh => if str_truthy sh then sh else "powershell.exe"
                 | None => "powershell.exe"
                 end in
    try_except
      (c <- gets self ;;
       p <- PtyProcess_spawn [shell] (working_dir c) (rows c, cols c) ;;
       on_self (set_pty (Some p)) ;;
       on_self (set_reader (Some ConPTYReader.init)) ;;
       logger_info (String.append "ConPTY started: " shell))
      (fun e => logger_error (String.append "Failed to start ConPTY: " (exn_str e))).

(** [_on_finished(exit_code)], the slot of the reader's [finished]. *)
Definition _on_finished (exit_code : Z) : M St unit :=
  logger_info (String.append "Terminal exited with code " (str_of_int exit_code)).

(** [_write(data)] *)
Definition _write (data : string) : M St unit :=
  c <- gets self ;;
  match pty c with
  | Some p =>
      when (PtyProcess.isalive p)
        (try_except
           (p' <- lift (PtyProcess.write data p) ;;
            on_self (set_pty (Some p')))
           (fun e => logger_error (String.append "Write error: " (exn_str e))))
  | None => ret tt
  end.

Definition key_map : list (Z * string) :=
  [ (Qt.Key_Return, chr 13);
    (Qt.Key_Enter, chr 13);
    (Qt.Key_Backspace, chr 127);
    (Qt.Key_Tab, chr 9);
    (Qt.Key_Escape, ESC);
    (Qt.Key_Up, String.append ESC "[A");
    (Qt.Key_Down, String.append ESC "[B");
    (Qt.Key_Right, String.append ESC "[C");
    (Qt.Key_Left, String.append ESC "[D");
    (Qt.Key_Home, String.append ESC "[H");
    (Qt.Key_End, String.append ESC "[F");
    (Qt.Key_PageUp, String.append ESC "[5~");
    (Qt.Key_PageDown, String.append ESC "[6~");
    (Qt.Key_Insert, String.append ESC "[2~");
    (Qt.Key_Delete, String.append ESC "[3~") ].

(** [d.get(k)] on a dict written as its items. *)
Fixpoint dict_get {V} (k : Z) (d : list (Z * V)) : option V :=
  match d with
  | [] => None
  | (k', v) :: d' => if k =? k' then Some v else dict_get k d'
  end.

(** [keyPressEvent(event)] *)
Definition keyPressEvent (event : QKeyEvent) : M St unit :=
  let key := key event in
  let mods := modifiers event in
  let text := text event in
  let by_key :=
    match dict_get key key_map with
    | Some bytes => _write bytes
    | None => if str_truthy text then _write text else ret tt
    end in
  if int_truthy (Z.land mods Qt.ControlModifier) then
    if key =? Qt.Key_C then _write (chr 3)
    else if key =? Qt.Key_D then _write (chr 4)
    else if key =? Qt.Key_Z then _write (chr 26)
    else if key =? Qt.Key_L then _write (chr 12)
    else by_key
  else by_key.

(** [_on_data(data)].  [stream_feed] is [self.stream.feed]: it returns
    the stream and screen as it leaves them and the exception it raised,
    if any. *)
Section OnData.
Variable stream_feed :
  string -> pyte.Stream * pyte.Screen ->
  (pyte.Stream * pyte.Screen) * option exn.

Definition feed_stream (text0 : string) (e : pyte.Stream * pyte.Screen)
  : M St unit :=
  fun s =>
    let '(e', err) := stream_feed text0 e in
    let s' := {| self := set_emulator (Some e') (self s); glob := glob s |} in
    match err with
    | Some ex => (Raise ex, s')
    | None => (Ok tt, s')
    end.

Definition _on_data (data : string) : M St unit :=
  try_except
    (let text0 := decode_utf8_replace data in
     c <- gets self ;;
     match emulator c with
     | Some e => feed_stream text0 e
     | None => on_self (set_buffer (_buffer c ++ [text0]))
     end ;;
     on_self (set_update_pending true))
    (fun e => logger_error (String.append "Data handling error: " (exn_str e))).
End OnData.

(** pyte's own [Stream.feed] on texts of the fragment, where it does not
    raise. *)
Definition pyte_feed (text0 : string) (e : pyte.Stream * pyte.Screen)
  : (pyte.Stream * pyte.Screen) * option exn :=
  (pyte.feed text0 e, None).

Definition rbind {A B} (r : result A) (k : A -> result B) : result B :=
  match r with
  | Ok a => k a
  | Raise e => Raise e
  end.

(** Foreground colour of a cell, lines 249 and 253-258. *)
Definition fg_color (ch : pyte.Char) : result QColor :=
  let fg := if negb (pyval_eqb_str (pyte.fg ch) "default")
            then pyte.fg ch else PyStr "white" in
  match fg with
  | PyInt z =>
      if z <? 16
      then rbind (py_index COLORS_16 z) (fun name => Ok (ColorName name))
      else Ok (ColorName "#cccccc")
  | PyStr s =>
      if String.eqb s "white" then Ok (ColorName "#cccccc")
      else Ok (ColorName "#cccccc")
  end.

(** Background fill of a cell, lines 250 and 260-264. *)
Definition bg_fill (cw chh x row_idx : Z) (ch : pyte.Char)
  : result (list PaintOp) :=
  let bg := if negb (pyval_eqb_str (pyte.bg ch) "default")
            then pyte.bg ch else PyStr "default" in
  if negb (pyval_eqb_str bg "default") then
    match bg with
    | PyInt z =>
        if z <? 16
        then rbind (py_index COLORS_16 z) (fun name =>
               Ok [FillRect x (row_idx * chh) cw chh (ColorName name)])
        else Ok []
    | PyStr _ => Ok []
    end
  else Ok [].

Definition paint_cell (cw chh x y row_idx : Z) (ch : pyte.Char)
  : result (list PaintOp) :=
  rbind (fg_color ch) (fun fg_c =>
  rbind (bg_fill cw chh x row_idx ch) (fun fill =>
  Ok (fill ++ [SetPen fg_c; DrawText x (y - 3) (pyte.data ch)]))).

(** The inner loop: [x] starts at 0 and advances by [char_width]. *)
Fixpoint paint_row (cw chh x y row_idx : Z) (row : list pyte.Char)
  : result (list PaintOp) :=
  match row with
  | [] => Ok []
  | ch :: row' =>
      rbind (paint_cell cw chh x y row_idx ch) (fun ops =>
      rbind (paint_row cw chh (x + cw) y row_idx row') (fun ops' =>
      Ok (ops ++ ops')))
  end.

(** [enumerate(x)] asks [x] for an iterator; an int has none. *)
Definition iterate_int (k : Z) : result (list pyte.Char) :=
  Raise (Exception "TypeError" "'int' object is not iterable").

(** The outer loop over [enumerate(self.screen.buffer)].  Iterating the
    dict gives its keys, so [row] is a row index, and the inner
    [enumerate(row)] of line 247 raises before any cell is looked at. *)
Fixpoint paint_rows (cw chh row_idx : Z) (keys : list Z)
  : result (list PaintOp) :=
  match keys with
  | [] => Ok []
  | row :: keys' =>
      rbind (iterate_int row) (fun cells =>
      rbind (paint_row cw chh 0 ((row_idx + 1) * chh) row_idx cells) (fun ops =>
      rbind (paint_rows cw chh (row_idx + 1) keys') (fun ops' =>
      Ok (ops ++ ops'))))
  end.

Definition cursor_block (c : t) (cur : pyte.Cursor) : PaintOp :=
  FillRect (pyte.x cur * char_width c) (pyte.y cur * char_height c)
           (char_width c) (char_height c) (ColorRgba 255 255 255 180).

(** Lines 270-276. *)
Definition paint_cursor (c : t) (cur : pyte.Cursor) : list PaintOp :=
  if ((0 <=? pyte.y cur) && (pyte.y cur <? rows c))
     && ((0 <=? pyte.x cur) && (pyte.x cur <? cols c))
  then [cursor_block c cur]
  else [].

(** The fallback loop over [self._buffer[-self.rows:]]. *)
Fixpoint paint_lines (chh y : Z) (ls : list string) : list PaintOp :=
  match ls with
  | [] => []
  | line :: ls' => DrawText 5 y (rstrip line) :: paint_lines chh (y + chh) ls'
  end.

(** [paintEvent(event)]: the painter calls it makes, or the exception
    it ends with. *)
Definition paintEvent (c : t) : result (list PaintOp) :=
  let head := [SetFont; FillAll (ColorName "#0c0c0c")] in
  match screen c with
  | None =>
      Ok (head ++ SetPen (ColorName "#cccccc")
               :: paint_lines (char_height c) (char_height c)
                    (py_slice_from (_buffer c) (- rows c)))
  | Some scr =>
      rbind (paint_rows (char_width c) (char_height c) 0 (map fst (pyte.buffer scr)))
        (fun cells => Ok (head ++ cells ++ paint_cursor c (pyte.cursor scr)))
  end.

(** [resizeEvent(event)]; [width] and [height] are what [self.width()]
    and [self.height()] answer once Qt has applied the new size. *)
Definition resizeEvent (width height : Z) : M St unit :=
  c <- gets self ;;
  w_cols <- lift (py_floordiv width (char_width c)) ;;
  let new_cols := Z.max 80 w_cols in
  h_rows <- lift (py_floordiv height (char_height c)) ;;
  let new_rows := Z.max 24 h_rows in
  when (negb (new_cols =? cols c) || negb (new_rows =? rows c))
    (on_self (set_dims new_cols new_rows) ;;
     match emulator c with
     | Some (st, scr) =>
         on_self (set_emulator (Some (st, pyte.resize new_rows new_cols scr)))
     | None => ret tt
     end ;;
     match pty c with
     | Some p =>
         when (PtyProcess.isalive p)
           (try_except
              (p' <- lift (PtyProcess.setwinsize new_rows new_cols p) ;;
               on_self (set_pty (Some p')))
              (fun _ => ret tt))
     | None => ret tt
     end).

(** [stop()].  [reader.wait(1000)] gives the reader thread a second;
    it changes nothing the GUI thread holds. *)
Definition stop : M St unit :=
  c <- gets self ;;
  match reader c with
  | Some r => on_self (set_reader (Some (ConPTYReader.stop r)))
  | None => ret tt
  end ;;
  match pty c with
  | Some p =>
      when (PtyProcess.isalive p)
        (on_self (set_pty (Some (PtyProcess.terminate p))))
  | None => ret tt
  end.

End WindowsTerminalCanvas.

(* ===================================================================== *)
(** ** class TerminalTabWidget(QWidget) *)
(* ===================================================================== *)

Module TerminalTabWidget.

(** One page of [self.tabs] (a [QTabWidget]) with its label. *)
Record Tab : Type := mkTab {
  label : string;
  page : WindowsTerminalCanvas.t
}.

(** The object: the pages of [self.tabs] in tab order, its current
    index (-1 when there is no page), the widget that has the keyboard
    focus, and the identity the next widget created will get. *)
Record t : Type := mk {
  tabs : list Tab;
  currentIndex : Z;
  focus : option nat;
  next_wid : nat
}.

Record St : Type := mkSt {
  self : t;
  glob : Globals
}.

Definition count (w : t) : Z := Z.of_nat (List.length (tabs w)).

(** [self.tabs.widget(index)]: nothing outside the range. *)
Definition widget (index : Z) (w : t) : option Tab :=
  if index <? 0 then None else nth_error (tabs w) (Z.to_nat index).

Fixpoint remove_nth {A} (n : nat) (l : list A) : list A :=
  match l, n with
  | [], _ => []
  | _ :: t, O => t
  | h :: t, S n' => h :: remove_nth n' t
  end.

(** [self.tabs.addTab(page, label)]: appended; the first page added
    becomes the current one. *)
Definition addTab (tb : Tab) (w : t) : t :=
  {| tabs := tabs w ++ [tb];
     currentIndex := if currentIndex w <? 0 then 0 else currentIndex w;
     focus := focus w; next_wid := next_wid w |}.

(** [self.tabs.setCurrentIndex(idx)] *)
Definition setCurrentIndex (idx : Z) (w : t) : t :=
  if (0 <=? idx) && (idx <? count w)
  then {| tabs := tabs w; currentIndex := idx;
          focus := focus w; next_wid := next_wid w |}
  else w.

(** [self.tabs.removeTab(index)]: nothing outside the range; the
    current index follows the pages that remain. *)
Definition removeTab (index : Z) (w : t) : t :=
  if (0 <=? index) && (index <? count w) then
    let rest := remove_nth (Z.to_nat index) (tabs w) in
    let n := Z.of_nat (List.length rest) in
    let cur := if index <? currentIndex w then currentIndex w - 1
               else Z.min (currentIndex w) (n - 1) in
    {| tabs := rest; currentIndex := cur;
       focus := focus w; next_wid := next_wid w |}
  else w.

(** [widget.setFocus()] *)
Definition setFocus (id : nat) (w : t) : t :=
  {| tabs := tabs w; currentIndex := currentIndex w;
     focus := Some id; next_wid := next_wid w |}.

Definition bump_wid (w : t) : t :=
  {| tabs := tabs w; currentIndex := currentIndex w;
     focus := focus w; next_wid := S (next_wid w) |}.

Definition set_tabs (l : list Tab) (w : t) : t :=
  {| tabs := l; currentIndex := currentIndex w;
     focus := focus w; next_wid := next_wid w |}.

(** A method call on the page at [idx].  The page is an object the tab
    widget holds by reference: what the method does to it is seen
    through [self.tabs], whether the method returns or raises. *)
Definition on_page (idx : nat) (m : M WindowsTerminalCanvas.St unit)
  : M St unit :=
  fun s =>
    match nth_error (tabs (self s)) idx with
    | Some tb =>
        let '(r, cs) := m {| WindowsTerminalCanvas.self := page tb;
                             WindowsTerminalCanvas.glob := glob s |} in
        (r, {| self := set_tabs
                         (list_set idx
                            {| label := label tb;
                               page := WindowsTerminalCanvas.self cs |}
                            (tabs (self s)))
                         (self s);
               glob := WindowsTerminalCanvas.glob cs |})
    | None => (Ok tt, s)
    end.

Definition on_self (f : t -> t) : M St unit :=
  modify (fun s => {| self := f (self s); glob := glob s |}).

(** [_add_terminal(shell="powershell.exe")] *)
Definition _add_terminal (shell : string) : M St unit :=
  s <- gets (fun s => s) ;;
  let terminal := WindowsTerminalCanvas.init (next_wid (self s)) (glob s) in
  on_self bump_wid ;;
  let shell_name := if str_contains "powershell" (lower shell)
                    then "PowerShell" else "CMD" in
  let idx := count (self s) in
  on_self (addTab {| label := String.append shell_name
                                (String.append " " (str_of_int (count (self s) + 1)));
                     page := terminal |}) ;;
  on_self (setCurrentIndex idx) ;;
  on_page (Z.to_nat idx) (WindowsTerminalCanvas.start None (Some shell)) ;;
  on_self (setFocus (WindowsTerminalCanvas.wid terminal)).

(** What a caller hands to [_add_terminal]: a str, or the [checked]
    bool that [QToolButton.clicked] passes to a slot that takes an
    argument. *)
Inductive ShellArg : Type :=
| ShellStr (shell : string)
| Checked (checked : bool).

(** [_add_terminal(arg)] for either kind of argument.  With a bool the
    canvas is created, then [shell.lower()] of line 355 raises. *)
Definition _add_terminal_call (arg : ShellArg) : M St unit :=
  match arg with
  | ShellStr shell => _add_terminal shell
  | Checked _ =>
      on_self bump_wid ;;
      raise (Exception "AttributeError" "'bool' object has no attribute 'lower'")
  end.

(** The connections of [_setup_ui] and [__init__]:
    [new_tab_btn.clicked.connect(self._add_terminal)],
    [cmd_btn.clicked.connect(lambda: self._add_terminal("cmd.exe"))] and
    [QTimer.singleShot(100, self._add_terminal)]. *)
Definition new_tab_btn_clicked (checked : bool) : M St unit :=
  _add_terminal_call (Checked checked).

Definition cmd_btn_clicked (checked : bool) : M St unit :=
  _add_terminal_call (ShellStr "cmd.exe").

Definition first_terminal_timeout : M St unit :=
  _add_terminal_call (ShellStr "powershell.exe").

(** [_close_tab(index)] *)
Definition _close_tab (index : Z) : M St unit :=
  w <- gets self ;;
  match widget index w with
  | Some _ => on_page (Z.to_nat index) WindowsTerminalCanvas.stop
  | None => ret tt
  end ;;
  on_self (removeTab index) ;;
  w' <- gets self ;;
  when (count w' =? 0) (_add_terminal "powershell.exe").

Fixpoint find_page (id : nat) (n : nat) (l : list Tab) : option nat :=
  match l with
  | [] => None
  | tb :: l' => if Nat.eqb (WindowsTerminalCanvas.wid (page tb)) id
                then Some n else find_page id (S n) l'
  end.

(** Qt's delivery of a key press: the widget that has the keyboard
    focus gets the event; without one the event goes nowhere. *)
Definition deliver_key (ev : QKeyEvent) : M St unit :=
  w <- gets self ;;
  match focus w with
  | Some id =>
      match find_page id 0 (tabs w) with
      | Some idx => on_page idx (WindowsTerminalCanvas.keyPressEvent ev)
      | None => ret tt
      end
  | None => ret tt
  end.

(** [__init__]: an empty tab widget; the first terminal is added by a
    timer 100 ms later. *)
Definition init : t :=
  {| tabs := []; currentIndex := -1; focus := None; next_wid := 0 |}.

End TerminalTabWidget.

(* ===================================================================== *)
(** * Statements: what the properties speak about *)
(* ===================================================================== *)

Module Canvas := WindowsTerminalCanvas.
Module Tabs := TerminalTabWidget.

(** ** Key input *)

(** Whether the Control modifier is held in an event. *)
Definition ctrl_held (ev : QKeyEvent) : bool :=
  int_truthy (Z.land (modifiers ev) Qt.ControlModifier).

(** The rows of the input-mapping table of the specification that name
    a key: the bytes the key sends, [None] for a key none of them names. *)
Definition named_key_bytes (ev : QKeyEvent) : option string :=
  let k := key ev in
  if (k =? Qt.Key_Enter) || (k =? Qt.Key_Return) then Some (chr 13)
  else if k =? Qt.Key_Backspace then Some (chr 127)
  else if k =? Qt.Key_Tab then Some (chr 9)
  else if k =? Qt.Key_Escape then Some ESC
  else if k =? Qt.Key_Up then Some (String.append ESC "[A")
  else if k =? Qt.Key_Down then Some (String.append ESC "[B")
  else if k =? Qt.Key_Right then Some (String.append ESC "[C")
  else if k =? Qt.Key_Left then Some (String.append ESC "[D")
  else if k =? Qt.Key_Home then Some (String.append ESC "[H")
  else if k =? Qt.Key_End then Some (String.append ESC "[F")
  else if k =? Qt.Key_PageUp then Some (String.append ESC "[5~")
  else if k =? Qt.Key_PageDown then Some (String.append ESC "[6~")
  else if k =? Qt.Key_Insert then Some (String.append ESC "[2~")
  else if k =? Qt.Key_Delete then Some (String.append ESC "[3~")
  else if ctrl_held ev && (k =? Qt.Key_C) then Some (chr 3)
  else if ctrl_held ev && (k =? Qt.Key_D) then Some (chr 4)
  else if ctrl_held ev && (k =? Qt.Key_Z) then Some (chr 26)
  else if ctrl_held ev && (k =? Qt.Key_L) then Some (chr 12)
  else None.

(** A printable text: not empty and free of control characters (the C0
    controls and DEL). *)
Definition printable_byte (a : ascii) : bool :=
  (32 <=? byte_val a) && negb (byte_val a =? 127).

Fixpoint no_control (t : string) : bool :=
  match t with
  | EmptyString => true
  | String a t' => printable_byte a && no_control t'
  end.

Definition printable (t : string) : bool := str_truthy t && no_control t.

(** The input-mapping table of the specification, read row by row: the
    bytes a key event sends, [None] when it sends nothing.  Its last row
    is "any other printable key: its literal text". *)
Definition input_mapping_table (ev : QKeyEvent) : option string :=
  match named_key_bytes ev with
  | Some bytes => Some bytes
  | None => if printable (text ev) then Some (text ev) else None
  end.

(** The table with its last row as the code has it: any other key whose
    event carries text sends that text, printable or not. *)
Definition amended_mapping_table (ev : QKeyEvent) : option string :=
  match named_key_bytes ev with
  | Some bytes => Some bytes
  | None => if str_truthy (text ev) then Some (text ev) else None
  end.

(** The session and the module state after a live PTY [p] has been
    handed [bytes]: nothing happens without bytes; otherwise the PTY takes
    them, unless the operating system refuses the write, which leaves an
    error record and nothing else. *)
Definition after_pty_write (bytes : option string) (p : PtyProcess.t)
    (c : Canvas.t) (g : Globals) : Canvas.St :=
  match bytes with
  | None => Canvas.mkSt c g
  | Some b =>
      match PtyProcess.write_error p with
      | None => Canvas.mkSt (Canvas.set_pty (Some (PtyProcess.receive b p)) c) g
      | Some e =>
          Canvas.mkSt c
            (log_record (ERROR, String.append "Write error: " (exn_str e)) g)
      end
  end.

(** ** Sample sessions *)

Definition globals0 : Globals :=
  {| HAS_WINPTY := true; HAS_PYTE := true; logger := [];
     spawn_error := None; home := "C:\Users\dev";
     cascadia_metrics := (9, 19); consolas_metrics := (8, 18) |}.

(** A process in which [PtyProcess.spawn] raises. *)
Definition spawn_refused : exn :=
  Exception "FileNotFoundError" "The command was not found or was not executable: powershell.exe.".

Definition globals_no_spawn : Globals :=
  {| HAS_WINPTY := true; HAS_PYTE := true; logger := [];
     spawn_error := Some spawn_refused; home := "C:\Users\dev";
     cascadia_metrics := (9, 19); consolas_metrics := (8, 18) |}.

(** A canvas as [__init__] leaves it, and the same after [start()]. *)
Definition fresh_canvas : Canvas.t := Canvas.init 0 globals0.

Definition started : Canvas.St :=
  snd (Canvas.start None None (Canvas.mkSt fresh_canvas globals0)).

Definition live_canvas : Canvas.t := Canvas.self started.

Definition live_pty : PtyProcess.t :=
  PtyProcess.spawn ["powershell.exe"] "C:\Users\dev" (30, 120).

(** The same session after its shell has exited. *)
Definition dead_pty : PtyProcess.t :=
  {| PtyProcess.argv := ["powershell.exe"]; PtyProcess.cwd := "C:\Users\dev";
     PtyProcess.dimensions := (30, 120); PtyProcess.alive := false;
     PtyProcess.exitstatus := Some 0; PtyProcess.written := [];
     PtyProcess.pending := []; PtyProcess.write_error := None;
     PtyProcess.setwinsize_error := None |}.

Definition dead_canvas : Canvas.t := Canvas.set_pty (Some dead_pty) live_canvas.

(** A live session whose pty refuses to be resized. *)
Definition resize_refused : exn := Exception "OSError" "SetConsoleSize failed".

Definition stubborn_pty : PtyProcess.t :=
  {| PtyProcess.argv := ["powershell.exe"]; PtyProcess.cwd := "C:\Users\dev";
     PtyProcess.dimensions := (30, 120); PtyProcess.alive := true;
     PtyProcess.exitstatus := None; PtyProcess.written := [];
     PtyProcess.pending := []; PtyProcess.write_error := None;
     PtyProcess.setwinsize_error := Some resize_refused |}.

Definition stubborn_canvas : Canvas.t :=
  Canvas.set_pty (Some stubborn_pty) live_canvas.

Definition ctrl_c_event : QKeyEvent :=
  {| key := Qt.Key_C; modifiers := Qt.ControlModifier; text := chr 3 |}.

(** Ctrl+A as Qt delivers it: the text is the control character. *)
Definition ctrl_a_event : QKeyEvent :=
  {| key := 65; modifiers := Qt.ControlModifier; text := chr 1 |}.

(** The claim of the specification: on a live PTY every key event sends
    what the input-mapping table gives for it, and nothing else. *)
Definition keys_follow_the_table : Prop :=
  forall (c : Canvas.t) (g : Globals) (p : PtyProcess.t) (ev : QKeyEvent),
    Canvas.pty c = Some p ->
    PtyProcess.isalive p = true ->
    Canvas.keyPressEvent ev (Canvas.mkSt c g) =
    (Ok tt, after_pty_write (input_mapping_table ev) p c g).

(** ** Writes to a session whose shell has exited *)

(** The claim of the specification: such a write sends nothing, raises
    nothing, and is logged. *)
Definition dead_write_is_logged : Prop :=
  forall (c : Canvas.t) (g : Globals) (p : PtyProcess.t) (data : string),
    Canvas.pty c = Some p ->
    PtyProcess.isalive p = false ->
    exists s',
      Canvas._write data (Canvas.mkSt c g) = (Ok tt, s') /\
      Canvas.pty (Canvas.self s') = Some p /\
      logger (Canvas.glob s') <> logger g.

(** ** Painting *)

(** The scenario of the specification: red text, reset, plain text. *)
Definition red_scenario : string :=
  String.append ESC (String.append "[31mRed" (String.append ESC "[0mNormal")).

Definition after_red_scenario : Canvas.St :=
  snd (Canvas._on_data Canvas.pyte_feed red_scenario
         (Canvas.mkSt fresh_canvas globals0)).

Definition cursor_in_bounds (c : Canvas.t) (cur : pyte.Cursor) : Prop :=
  (0 <= pyte.y cur < Canvas.rows c) /\ (0 <= pyte.x cur < Canvas.cols c).

(** What the inner loop of [paintEvent] ends with on the first row. *)
Definition int_not_iterable : exn :=
  Exception "TypeError" "'int' object is not iterable".

(** The cell of a screen at a row and column, if it has been written. *)
Definition cell_at (row col : Z) (scr : pyte.Screen) : option pyte.Char :=
  match py_dict_get row (pyte.buffer scr) with
  | Some line => py_dict_get col line
  | None => None
  end.

(** A session whose cursor has run past the last column: 120 characters
    on the first line of a fresh 30 x 120 screen. *)
Fixpoint replicate (n : nat) (s : string) : string :=
  match n with
  | O => EmptyString
  | S n' => String.append s (replicate n' s)
  end.

Definition full_line_canvas : Canvas.t :=
  Canvas.self (snd (Canvas._on_data Canvas.pyte_feed (replicate 120 "a")
                      (Canvas.mkSt fresh_canvas globals0))).

(** ** Resizing *)

(** What [resizeEvent] leaves behind for a canvas [c] that received the
    pixel size [width] x [height], as the resize contract describes it.
    [after_failure] is what the contract says of the module state when
    the pty refuses the new size. *)
Definition resize_outcome (after_failure : Globals -> Globals -> Prop)
    (c : Canvas.t) (g : Globals) (width height : Z) (s' : Canvas.St) : Prop :=
  let new_cols := Z.max 80 (width / Canvas.char_width c) in
  let new_rows := Z.max 24 (height / Canvas.char_height c) in
  if (new_cols =? Canvas.cols c) && (new_rows =? Canvas.rows c)
  then s' = Canvas.mkSt c g
  else
    Canvas.cols (Canvas.self s') = new_cols /\
    Canvas.rows (Canvas.self s') = new_rows /\
    Canvas.emulator (Canvas.self s') =
      option_map (fun e => (fst e, pyte.resize new_rows new_cols (snd e)))
                 (Canvas.emulator c) /\
    match Canvas.pty c with
    | Some p =>
        if PtyProcess.isalive p then
          match PtyProcess.setwinsize new_rows new_cols p with
          | Ok p' =>
              Canvas.pty (Canvas.self s') = Some p' /\
              PtyProcess.dimensions p' = (new_rows, new_cols) /\
              Canvas.glob s' = g
          | Raise _ =>
              Canvas.pty (Canvas.self s') = Some p /\
              after_failure g (Canvas.glob s')
          end
        else Canvas.pty (Canvas.self s') = Some p /\ Canvas.glob s' = g
    | None => Canvas.pty (Canvas.self s') = None /\ Canvas.glob s' = g
    end.

(** The claim of the specification: a refused pty resize is not fatal,
    not surfaced, and logged. *)
Definition resize_failure_is_logged : Prop :=
  forall (c : Canvas.t) (g : Globals) (width height : Z),
    Canvas.char_width c <> 0 ->
    Canvas.char_height c <> 0 ->
    exists s',
      Canvas.resizeEvent width height (Canvas.mkSt c g) = (Ok tt, s') /\
      resize_outcome (fun g0 g1 => logger g1 <> logger g0) c g width height s'.

(** The screen a canvas paints from; an empty one when it has none. *)
Definition screen_of (c : Canvas.t) : pyte.Screen :=
  match Canvas.screen c with
  | Some scr => scr
  | None => pyte.new_screen 0 0
  end.

(** ** The reader loop *)

Module Reader := ConPTYReader.

(** The thread is inside [pty.read] and the read cannot return: the
    process lives and has produced nothing. *)
Definition read_blocked (th : Reader.Thread) : Prop :=
  Reader.loc th = Reader.Reading /\
  PtyProcess.alive (Reader.pty th) = true /\
  PtyProcess.pending (Reader.pty th) = [].

(** The claim of the specification: there is a bound within which [run]
    has returned after [stop()], also for a PTY that stays alive and
    silent. *)
Definition stop_exits_while_pty_alive : Prop :=
  exists bound : nat,
    forall th : Reader.Thread,
      PtyProcess.alive (Reader.pty th) = true ->
      PtyProcess.pending (Reader.pty th) = [] ->
      Reader.loc (Reader.run bound (Reader.request_stop th)) = Reader.Returned.

(** The reader of a fresh session once it has entered its first read. *)
Definition waiting_reader : Reader.Thread :=
  Reader.run 1 (Reader.start Reader.init live_pty).

(** ** Tabs *)

(** The label [_add_terminal] gives the tab it adds. *)
Definition tab_label (shell : string) (w : Tabs.t) : string :=
  String.append
    (if str_contains "powershell" (lower shell) then "PowerShell" else "CMD")
    (String.append " " (str_of_int (Tabs.count w + 1))).

(** The canvas [_add_terminal] creates, after [start(shell=shell)] has
    run on it, with the module state [start] leaves. *)
Definition started_page (shell : string) (w : Tabs.t) (g : Globals) : Canvas.St :=
  snd (Canvas.start None (Some shell)
         (Canvas.mkSt (Canvas.init (Tabs.next_wid w) g) g)).

(** The tab widget after [_add_terminal(shell)]. *)
Definition after_add (shell : string) (w : Tabs.t) (g : Globals) : Tabs.St :=
  {| Tabs.self :=
       {| Tabs.tabs := Tabs.tabs w ++
                       [{| Tabs.label := tab_label shell w;
                           Tabs.page := Canvas.self (started_page shell w g) |}];
          Tabs.currentIndex := Tabs.count w;
          Tabs.focus := Some (Tabs.next_wid w);
          Tabs.next_wid := S (Tabs.next_wid w) |};
     Tabs.glob := Canvas.glob (started_page shell w g) |}.

(** Widget identities handed out so far are below [next_wid]. *)
Definition wids_fresh (w : Tabs.t) : Prop :=
  Forall (fun tb => (Canvas.wid (Tabs.page tb) < Tabs.next_wid w)%nat) (Tabs.tabs w).

(** The claim of the specification: a failed spawn is surfaced to the
    caller and no tab is added. *)
Definition spawn_failure_is_surfaced : Prop :=
  forall (shell : string) (w : Tabs.t) (g : Globals) (e : exn),
    HAS_WINPTY g = true ->
    spawn_error g = Some e ->
    exists s',
      Tabs._add_terminal shell (Tabs.mkSt w g) = (Raise e, s') /\
      Tabs.tabs (Tabs.self s') = Tabs.tabs w.

(** A tab widget with one PowerShell tab, and one with a CMD tab added. *)
Definition one_tab : Tabs.St :=
  snd (Tabs._add_terminal "powershell.exe" (Tabs.mkSt Tabs.init globals0)).

Definition two_tabs : Tabs.St :=
  snd (Tabs._add_terminal "cmd.exe" one_tab).

Definition key_a_event : QKeyEvent :=
  {| key := 65; modifiers := 0; text := "a" |}.

(** The tab widget once [stop()] has run on the page at [index], if there
    is one. *)
Definition stop_page (g : Globals) (index : Z) (w : Tabs.t) : Tabs.t :=
  match Tabs.widget index w with
  | Some tb =>
      Tabs.set_tabs
        (list_set (Z.to_nat index)
           {| Tabs.label := Tabs.label tb;
              Tabs.page := Canvas.self (snd (Canvas.stop (Canvas.mkSt (Tabs.page tb) g))) |}
           (Tabs.tabs w))
        w
  | None => w
  end.

(** ** Further properties of the canvas *)

(** [shell or "powershell.exe"] *)
Definition shell_or_default (sh : option string) : string :=
  match sh with
  | Some s => if str_truthy s then s else "powershell.exe"
  | None => "powershell.exe"
  end.

(** Whether the canvas holds a PTY whose process is alive. *)
Definition has_live_pty (c : Canvas.t) : bool :=
  match Canvas.pty c with
  | Some p => PtyProcess.isalive p
  | None => false
  end.

(** The canvas, its screen and its PTY agree on the size of the grid,
    as far as the PTY can be told: a PTY that is dead or refuses a resize
    is not asked. *)
Definition dims_synced (c : Canvas.t) : Prop :=
  (forall st scr, Canvas.emulator c = Some (st, scr) ->
     pyte.columns scr = Canvas.cols c /\ pyte.lines scr = Canvas.rows c) /\
  (forall p, Canvas.pty c = Some p ->
     PtyProcess.isalive p = true ->
     PtyProcess.setwinsize_error p = None ->
     PtyProcess.dimensions p = (Canvas.rows c, Canvas.cols c)).

(** A canvas without pyte, as [__init__] leaves it in such a process. *)
Definition globals_no_pyte : Globals :=
  {| HAS_WINPTY := true; HAS_PYTE := false; logger := [];
     spawn_error := None; home := "C:\Users\dev";
     cascadia_metrics := (0, 0); consolas_metrics := (8, 18) |}.

Definition plain_canvas : Canvas.t := Canvas.init 0 globals_no_pyte.

(** A canvas whose font reports no advance at all. *)
Definition globals_no_font : Globals :=
  {| HAS_WINPTY := true; HAS_PYTE := true; logger := [];
     spawn_error := None; home := "C:\Users\dev";
     cascadia_metrics := (0, 0); consolas_metrics := (0, 0) |}.

Definition fontless_canvas : Canvas.t := Canvas.init 0 globals_no_font.

(** The PTY a canvas holds after a resize to [new_rows] x [new_cols]. *)
Definition resized_pty (new_rows new_cols : Z) (pt : option PtyProcess.t)
  : option PtyProcess.t :=
  match pt with
  | Some p =>
      if PtyProcess.isalive p then
        match PtyProcess.setwinsize new_rows new_cols p with
        | Ok p' => Some p'
        | Raise _ => Some p
        end
      else Some p
  | None => None
  end.

(** The canvas after a resize that changes its dimensions. *)
Definition resized (new_cols new_rows : Z) (c : Canvas.t) : Canvas.t :=
  Canvas.set_pty (resized_pty new_rows new_cols (Canvas.pty c))
    (Canvas.set_emulator
       (option_map (fun e => (fst e, pyte.resize new_rows new_cols (snd e)))
                   (Canvas.emulator c))
       (Canvas.set_dims new_cols new_rows c)).

Definition zero_division : exn :=
  Exception "ZeroDivisionError" "integer division or modulo by zero".

(** ** Painting, continued *)

(** The lines the fallback painter shows, numbered from [i]: line [i] on
    the baseline (i + 1) * chh. *)
Fixpoint line_glyphs (chh i : Z) (ls : list string) : list PaintOp :=
  match ls with
  | [] => []
  | line :: ls' => DrawText 5 ((i + 1) * chh) (rstrip line) :: line_glyphs chh (i + 1) ls'
  end.

(** The last [n] elements of a list. *)
Definition last_n {A} (n : nat) (l : list A) : list A :=
  skipn (List.length l - n) l.

(** A canvas without pyte that has received three chunks. *)
Definition plain_canvas_3 : Canvas.t :=
  Canvas.set_buffer ["C:\> dir  "; "a.txt"; "b.txt "] plain_canvas.

(** ** Incoming data, continued *)

(** The canvas after the chunks of a list have arrived one by one. *)
Definition on_data_all
    (stream_feed : string -> pyte.Stream * pyte.Screen ->
                   (pyte.Stream * pyte.Screen) * option exn)
    (chunks : list string) (s : Canvas.St) : Canvas.St :=
  fold_left (fun s0 d => snd (Canvas._on_data stream_feed d s0)) chunks s.

(** A stream that chokes on everything, having moved the cursor first. *)
Definition choking_feed (text0 : string) (e : pyte.Stream * pyte.Screen)
  : (pyte.Stream * pyte.Screen) * option exn :=
  ((fst e, pyte.move_to 1 0 (snd e)), Some (Exception "ValueError" "bad sequence")).

(** ** The reader loop, continued *)

(** The child writes [d] to its side of the PTY. *)
Definition produce (d : string) (th : Reader.Thread) : Reader.Thread :=
  {| Reader.loc := Reader.loc th; Reader.me := Reader.me th;
     Reader.pty := PtyProcess.with_pending
                     (PtyProcess.pending (Reader.pty th) ++ [d]) (Reader.pty th);
     Reader.emitted := Reader.emitted th; Reader.log := Reader.log th |}.

(** [reaches th out th']: the reader thread gets from [th] to [th'] by
    steps of its own, interleaved in any way with the GUI thread calling
    [stop()], the PTY being terminated, and the child producing the
    chunks [out], in that order. *)
Inductive reaches : Reader.Thread -> list string -> Reader.Thread -> Prop :=
| reaches_here (th : Reader.Thread) : reaches th [] th
| reaches_step (th th1 th2 : Reader.Thread) (out : list string) :
    Reader.step th = Some th1 -> reaches th1 out th2 -> reaches th out th2
| reaches_stop (th th2 : Reader.Thread) (out : list string) :
    reaches (Reader.request_stop th) out th2 -> reaches th out th2
| reaches_kill (th th2 : Reader.Thread) (out : list string) :
    reaches (Reader.kill th) out th2 -> reaches th out th2
| reaches_produce (th th2 : Reader.Thread) (d : string) (out : list string) :
    reaches (produce d th) out th2 -> reaches th (d :: out) th2.

(** The payloads of the [data_ready] signals, in order of emission. *)
Fixpoint payloads (sigs : list Reader.Signal) : list string :=
  match sigs with
  | [] => []
  | Reader.data_ready d :: sigs' => d :: payloads sigs'
  | Reader.finished _ :: sigs' => payloads sigs'
  end.

Definition concat_str (l : list string) : string :=
  fold_right String.append EmptyString l.

(** What [run] emits when it returns. *)
Definition closing_signal (th : Reader.Thread) : list Reader.Signal :=
  match Reader.loc th with
  | Reader.Returned => [Reader.finished (Reader.exit_code_of (Reader.pty th))]
  | _ => []
  end.

(** A shell that exited with status 3 leaving output unread. *)
Definition exited_pty : PtyProcess.t :=
  {| PtyProcess.argv := ["powershell.exe"]; PtyProcess.cwd := "C:\Users\dev";
     PtyProcess.dimensions := (30, 120); PtyProcess.alive := false;
     PtyProcess.exitstatus := Some 3; PtyProcess.written := [];
     PtyProcess.pending := ["bye"]; PtyProcess.write_error := None;
     PtyProcess.setwinsize_error := None |}.

(** The bytes a thread has passed on followed by the bytes still waiting
    in the PTY. *)
Definition stream_of (th : Reader.Thread) : string :=
  String.append (concat_str (payloads (Reader.emitted th)))
                (concat_str (PtyProcess.pending (Reader.pty th))).

(** The signals of a thread are [data_ready] signals with non-empty
    payloads, closed by one [finished] exactly when [run] has returned. *)
Definition signals_well_formed (th : Reader.Thread) : Prop :=
  Reader.emitted th =
    map Reader.data_ready (payloads (Reader.emitted th)) ++ closing_signal th /\
  Forall (fun d => d <> EmptyString) (payloads (Reader.emitted th)).

(** A shell that has printed a prompt nobody has read yet. *)
Definition prompting_pty : PtyProcess.t :=
  PtyProcess.with_pending ["PS C:\> "] live_pty.

(** ** Tabs, continued *)

(** The tab widget after [_add_terminal] has been called with the
    arguments of a list, one after the other, each call ending as it
    ends. *)
Definition add_all (args : list Tabs.ShellArg) (s : Tabs.St) : Tabs.St :=
  fold_left (fun s0 arg => snd (Tabs._add_terminal_call arg s0)) args s.

(** The str arguments of a list of arguments. *)
Fixpoint shell_strings (args : list Tabs.ShellArg) : list string :=
  match args with
  | [] => []
  | Tabs.ShellStr sh :: args' => sh :: shell_strings args'
  | Tabs.Checked _ :: args' => shell_strings args'
  end.

(** The labels of tabs added for [shells] when the first of them gets
    the number [n]. *)
Fixpoint numbered_labels (n : Z) (shells : list string) : list string :=
  match shells with
  | [] => []
  | sh :: shells' =>
      String.append
        (if str_contains "powershell" (lower sh) then "PowerShell" else "CMD")
        (String.append " " (str_of_int n))
      :: numbered_labels (n + 1) shells'
  end.

Definition labels (w : Tabs.t) : list string := map Tabs.label (Tabs.tabs w).

(** The reader thread of a canvas, seen at location [l] with the signals
    [em] and log [lg] behind it: it shares the canvas's reader object and
    PTY. *)
Definition reader_thread (c : Canvas.t) (l : Reader.Loc)
    (em : list Reader.Signal) (lg : list LogRecord) : option Reader.Thread :=
  match Canvas.reader c, Canvas.pty c with
  | Some r, Some p =>
      Some {| Reader.loc := l; Reader.me := r; Reader.pty := p;
              Reader.emitted := em; Reader.log := lg |}
  | _, _ => None
  end.

(** Control matters for these four keys only. *)
Definition control_key (k : Z) : bool :=
  (k =? Qt.Key_C) || (k =? Qt.Key_D) || (k =? Qt.Key_Z) || (k =? Qt.Key_L).
(* ===================================================================== *)
(** * Properties *)
(* ===================================================================== *)

(** ** Key input *)

Lemma write_to_live_pty (c : Canvas.t) (g : Globals) (p : PtyProcess.t) (data : string) :
  Canvas.pty c = Some p ->
  PtyProcess.isalive p = true ->
  Canvas._write data (Canvas.mkSt c g) = (Ok tt, after_pty_write (Some data) p c g).
Proof.
  intros Hp Ha.
  unfold Canvas._write, after_pty_write, bind, gets, when, try_except, lift,
    Canvas.on_self, Canvas.logger_error, modify.
  cbn [Canvas.self Canvas.glob]. rewrite Hp, Ha.
  unfold PtyProcess.write. unfold PtyProcess.isalive in Ha. rewrite Ha.
  cbn [negb]. destruct (PtyProcess.write_error p); reflexivity.
Qed.

Ltac split_key k :=
  repeat match goal with
         | |- context [Z.eqb k ?c] =>
             destruct (Z.eqb_spec k c) as [->|?]; cbn; try reflexivity
         end.

Lemma keyPressEvent_by_table (ev : QKeyEvent) :
  Canvas.keyPressEvent ev =
  match amended_mapping_table ev with
  | Some bytes => Canvas._write bytes
  | None => ret tt
  end.
Proof.
  destruct ev as [k m t].
  unfold Canvas.keyPressEvent, amended_mapping_table, named_key_bytes, ctrl_held.
  cbn [key modifiers text].
  destruct (int_truthy (Z.land m Qt.ControlModifier)); cbn [andb];
    unfold Canvas.key_map, Canvas.dict_get;
    split_key k;
    destruct (str_truthy t); reflexivity.
Qed.

(** The two tables differ only on events whose text is neither empty
    nor printable. *)
Lemma tables_agree_on_printable (ev : QKeyEvent) :
  printable (text ev) = true \/ text ev = EmptyString ->
  amended_mapping_table ev = input_mapping_table ev.
Proof.
  unfold amended_mapping_table, input_mapping_table, printable.
  intros [Hp | He]; destruct (named_key_bytes ev); try reflexivity.
  - apply andb_prop in Hp as [Ht Hc]. now rewrite Ht, Hc.
  - now rewrite He.
Qed.

(** C1, amended.  For a canvas whose PTY process is alive, a key event
    makes [keyPressEvent] hand to that PTY exactly the bytes of the
    input-mapping table with its last row read as "any other key whose
    event carries text sends that text, printable or not", and nothing
    when that table gives none: the PTY receives those bytes and nothing
    else changes (a write the operating system refuses is logged
    instead). *)
Theorem keyPressEvent_input_mapping
    (c : Canvas.t) (g : Globals) (p : PtyProcess.t) (ev : QKeyEvent) :
  Canvas.pty c = Some p ->
  PtyProcess.isalive p = true ->
  Canvas.keyPressEvent ev (Canvas.mkSt c g) =
  (Ok tt, after_pty_write (amended_mapping_table ev) p c g).
Proof.
  intros Hp Ha. rewrite keyPressEvent_by_table.
  destruct (amended_mapping_table ev) as [bytes|].
  - now apply write_to_live_pty.
  - reflexivity.
Qed.

Lemma keyPressEvent_input_mapping_witness :
  Canvas.pty live_canvas = Some live_pty /\
  PtyProcess.isalive live_pty = true /\
  Canvas.keyPressEvent ctrl_c_event (Canvas.mkSt live_canvas globals0) =
  (Ok tt,
   Canvas.mkSt
     (Canvas.set_pty (Some (PtyProcess.receive (chr 3) live_pty)) live_canvas)
     globals0).
Proof.
  split; [reflexivity|]. split; [reflexivity|].
  exact (keyPressEvent_input_mapping live_canvas globals0 ctrl_c_event
           eq_refl eq_refl).
Defined.

(** C1 as stated fails: Ctrl+A is no row of the table and its text, the
    control character 0x01, is not printable, yet [keyPressEvent] sends
    it to the live PTY. *)
Lemma ctrl_a_sends_control_byte : ~ keys_follow_the_table.
Proof.
  intros claim.
  specialize (claim live_canvas globals0 live_pty ctrl_a_event eq_refl eq_refl).
  vm_compute in claim. discriminate claim.
Qed.

Example ctrl_a_in_the_tables :
  input_mapping_table ctrl_a_event = None /\
  amended_mapping_table ctrl_a_event = Some (chr 1).
Proof. split; reflexivity. Qed.

(** The rows of the table, one event each. *)
Example table_enter :
  input_mapping_table {| key := Qt.Key_Enter; modifiers := 0; text := chr 13 |}
  = Some (chr 13).
Proof. reflexivity. Qed.

Example table_arrow_up :
  input_mapping_table {| key := Qt.Key_Up; modifiers := 0; text := EmptyString |}
  = Some (String.append ESC "[A").
Proof. reflexivity. Qed.

Example table_ctrl_z :
  input_mapping_table {| key := Qt.Key_Z; modifiers := Qt.ControlModifier; text := chr 26 |}
  = Some (chr 26).
Proof. reflexivity. Qed.

Example table_printable :
  input_mapping_table {| key := 65; modifiers := 0; text := "a" |} = Some "a".
Proof. reflexivity. Qed.

Example table_modifier_only :
  input_mapping_table {| key := 16777248; modifiers := 33554432; text := EmptyString |} = None.
Proof. reflexivity. Qed.

(** ** Writes to a dead session *)

(** C8, amended.  A write to a session whose shell process has exited
    leaves the canvas, the PTY and the logger exactly as they were and
    returns normally: no bytes are sent, no exception reaches the caller,
    and no log record is made. *)
Theorem write_dead_session_dropped
    (c : Canvas.t) (g : Globals) (p : PtyProcess.t) (data : string) :
  Canvas.pty c = Some p ->
  PtyProcess.isalive p = false ->
  Canvas._write data (Canvas.mkSt c g) = (Ok tt, Canvas.mkSt c g).
Proof.
  intros Hp Ha.
  unfold Canvas._write, bind, gets, when.
  cbn [Canvas.self]. rewrite Hp, Ha. reflexivity.
Qed.

Lemma write_dead_session_dropped_witness :
  Canvas.pty dead_canvas = Some dead_pty /\
  PtyProcess.isalive dead_pty = false /\
  Canvas._write "dir" (Canvas.mkSt dead_canvas globals0) =
  (Ok tt, Canvas.mkSt dead_canvas globals0).
Proof.
  split; [reflexivity|]. split; [reflexivity|].
  exact (write_dead_session_dropped dead_canvas globals0 "dir" eq_refl eq_refl).
Defined.

(** C8 as stated fails: the write to the dead session of [dead_canvas]
    is dropped without a log record. *)
Lemma dead_write_not_logged : ~ dead_write_is_logged.
Proof.
  intros claim.
  destruct (claim dead_canvas globals0 dead_pty "dir" eq_refl eq_refl)
    as (s' & Hrun & _ & Hlog).
  vm_compute in Hrun. inversion Hrun; subst s'. clear Hrun.
  apply Hlog. reflexivity.
Qed.

(** ** Incoming data *)

(** C3.  Whatever bytes arrive and whatever the stream does with them,
    also when it raises, [_on_data] returns normally; the logger is left
    as it was or has taken one error record. *)
Theorem on_data_never_raises
    (stream_feed : string -> pyte.Stream * pyte.Screen ->
                   (pyte.Stream * pyte.Screen) * option exn)
    (data : string) (s : Canvas.St) :
  exists s',
    Canvas._on_data stream_feed data s = (Ok tt, s') /\
    (logger (Canvas.glob s') = logger (Canvas.glob s) \/
     exists msg, logger (Canvas.glob s') = logger (Canvas.glob s) ++ [(ERROR, msg)]).
Proof.
  destruct s as [c g].
  unfold Canvas._on_data, try_except, bind, gets, Canvas.feed_stream,
    Canvas.on_self, Canvas.logger_error, modify.
  cbn [Canvas.self Canvas.glob].
  destruct (Canvas.emulator c) as [e|].
  - destruct (stream_feed (decode_utf8_replace data) e) as [e' [ex|]];
      cbn [Canvas.self Canvas.glob].
    + eexists; split; [reflexivity|]. right. eexists. reflexivity.
    + eexists; split; [reflexivity|]. now left.
  - eexists; split; [reflexivity|]. now left.
Qed.

(** Bytes that are no UTF-8 are decoded all the same. *)
Example decode_invalid_byte :
  decode_utf8_replace (String (ascii_of_nat 255) "a") = String.append REPLACEMENT "a".
Proof. reflexivity. Qed.

(** A stream that raises leaves its trace in the logger only. *)
Example on_data_with_failing_stream :
  Canvas._on_data
    (fun _ e => (e, Some (Exception "ValueError" "bad sequence")))
    (String (ascii_of_nat 255) ESC)
    (Canvas.mkSt fresh_canvas globals0) =
  (Ok tt,
   Canvas.mkSt fresh_canvas
     (log_record (ERROR, "Data handling error: bad sequence") globals0)).
Proof. reflexivity. Qed.

(** ** Resizing *)

Lemma floordiv_nonzero (a b : Z) : b <> 0 -> py_floordiv a b = Ok (a / b).
Proof.
  intros Hb. unfold py_floordiv.
  destruct (Z.eqb_spec b 0); [contradiction | reflexivity].
Qed.

(** C6, amended.  With non-zero character cell sizes, [resizeEvent]
    returns normally; it computes cols = max(80, width // char_width)
    and rows = max(24, height // char_height); when both equal the current
    dimensions nothing changes; otherwise the canvas takes the new
    dimensions, the screen (if any) is resized to them, and a live pty is
    given the new size.  When the pty refuses the size, the pty and the
    module state, logger included, stay as they were: the failure is
    neither surfaced nor logged. *)
Theorem resizeEvent_contract
    (c : Canvas.t) (g : Globals) (width height : Z) :
  Canvas.char_width c <> 0 ->
  Canvas.char_height c <> 0 ->
  exists s',
    Canvas.resizeEvent width height (Canvas.mkSt c g) = (Ok tt, s') /\
    resize_outcome (fun g0 g1 => g1 = g0) c g width height s'.
Proof.
  intros Hw Hh.
  unfold Canvas.resizeEvent, resize_outcome, bind, gets, lift.
  cbn [Canvas.self].
  rewrite (floordiv_nonzero width Hw), (floordiv_nonzero height Hh).
  set (new_cols := Z.max 80 (width / Canvas.char_width c)).
  set (new_rows := Z.max 24 (height / Canvas.char_height c)).
  clearbody new_cols new_rows.
  destruct c as [id cs rs cw chh em buf pt rd wd up].
  cbn [Canvas.cols Canvas.rows Canvas.emulator Canvas.pty].
  destruct (new_cols =? cs) eqn:Ec; destruct (new_rows =? rs) eqn:Er;
    cbn [negb orb andb when];
    try (eexists; split; [reflexivity | reflexivity]).
  all: unfold bind, Canvas.on_self, modify, when, try_except, lift, ret;
    cbn [Canvas.self Canvas.glob];
    destruct em as [[st scr]|]; destruct pt as [p|];
    unfold PtyProcess.setwinsize;
    repeat match goal with
           | |- context [PtyProcess.isalive ?q] => destruct (PtyProcess.isalive q)
           | |- context [PtyProcess.setwinsize_error ?q] =>
               destruct (PtyProcess.setwinsize_error q)
           end;
    eexists; (split; [reflexivity | cbn; auto 6]).
Qed.

Lemma resizeEvent_contract_witness :
  Canvas.char_width stubborn_canvas <> 0 /\
  Canvas.char_height stubborn_canvas <> 0 /\
  exists s',
    Canvas.resizeEvent 1800 950 (Canvas.mkSt stubborn_canvas globals0) = (Ok tt, s') /\
    resize_outcome (fun g0 g1 => g1 = g0) stubborn_canvas globals0 1800 950 s'.
Proof.
  split; [discriminate|]. split; [discriminate|].
  apply (resizeEvent_contract stubborn_canvas globals0 1800 950); discriminate.
Defined.

(** C6 as stated fails: [stubborn_canvas] is resized from 120 x 30 to
    200 x 50, its pty refuses the size, and the logger stays empty. *)
Lemma resize_failure_not_logged : ~ resize_failure_is_logged.
Proof.
  intros claim.
  destruct (claim stubborn_canvas globals0 1800 950) as (s' & Hrun & Hout);
    [discriminate | discriminate |].
  vm_compute in Hrun. inversion Hrun; subst s'. clear Hrun.
  unfold resize_outcome in Hout. cbn in Hout.
  destruct Hout as (_ & _ & _ & _ & Hlog). now apply Hlog.
Qed.

(** ** Painting *)

Lemma paint_cursor_guard (c : Canvas.t) (cur : pyte.Cursor) :
  (cursor_in_bounds c cur ->
   Canvas.paint_cursor c cur =
     [FillRect (pyte.x cur * Canvas.char_width c) (pyte.y cur * Canvas.char_height c)
               (Canvas.char_width c) (Canvas.char_height c)
               (ColorRgba 255 255 255 180)]) /\
  (~ cursor_in_bounds c cur -> Canvas.paint_cursor c cur = []).
Proof.
  unfold cursor_in_bounds, Canvas.paint_cursor, Canvas.cursor_block.
  destruct (Z.leb_spec 0 (pyte.y cur)); destruct (Z.ltb_spec (pyte.y cur) (Canvas.rows c));
    destruct (Z.leb_spec 0 (pyte.x cur)); destruct (Z.ltb_spec (pyte.x cur) (Canvas.cols c));
    cbn [andb]; split; intros Hb; try reflexivity; try lia;
    exfalso; apply Hb; lia.
Qed.

(** The walk over the rows ends at the first key of the buffer. *)
Lemma paint_rows_raises (cw chh row_idx : Z) (keys : list Z) :
  keys <> [] -> Canvas.paint_rows cw chh row_idx keys = Raise int_not_iterable.
Proof. destruct keys as [|k keys]; [congruence | reflexivity]. Qed.

(** C9.  What [paintEvent] does on a canvas with a screen.  While no row
    of the screen has been touched, painting completes: background, then
    the cursor block (the translucent white cell at the cursor) exactly
    when 0 <= cursor.y < rows and 0 <= cursor.x < cols, and nothing for a
    cursor outside.  As soon as the buffer holds a row, [paintEvent]
    raises TypeError at the inner loop, wherever the cursor is: painting
    does not complete and the cursor code is not reached. *)
Theorem paintEvent_cursor_guard (c : Canvas.t) (scr : pyte.Screen) :
  Canvas.screen c = Some scr ->
  (pyte.buffer scr = [] -> cursor_in_bounds c (pyte.cursor scr) ->
   Canvas.paintEvent c =
     Ok [SetFont; FillAll (ColorName "#0c0c0c");
         FillRect (pyte.x (pyte.cursor scr) * Canvas.char_width c)
                  (pyte.y (pyte.cursor scr) * Canvas.char_height c)
                  (Canvas.char_width c) (Canvas.char_height c)
                  (ColorRgba 255 255 255 180)]) /\
  (pyte.buffer scr = [] -> ~ cursor_in_bounds c (pyte.cursor scr) ->
   Canvas.paintEvent c = Ok [SetFont; FillAll (ColorName "#0c0c0c")]) /\
  (pyte.buffer scr <> [] -> Canvas.paintEvent c = Raise int_not_iterable).
Proof.
  intros Hscr. unfold Canvas.paintEvent. rewrite Hscr.
  destruct (paint_cursor_guard c (pyte.cursor scr)) as [Hin Hout].
  split; [|split].
  - intros -> Hb. cbn [map Canvas.paint_rows Canvas.rbind app].
    now rewrite (Hin Hb).
  - intros -> Hb. cbn [map Canvas.paint_rows Canvas.rbind app].
    now rewrite (Hout Hb).
  - intros Hne. rewrite paint_rows_raises; [reflexivity|].
    destruct (pyte.buffer scr); [congruence | discriminate].
Qed.

Lemma paintEvent_cursor_guard_witness :
  Canvas.screen full_line_canvas = Some (screen_of full_line_canvas) /\
  pyte.buffer (screen_of full_line_canvas) <> [] /\
  pyte.x (pyte.cursor (screen_of full_line_canvas)) = Canvas.cols full_line_canvas /\
  Canvas.paintEvent full_line_canvas = Raise int_not_iterable.
Proof.
  assert (Hscr : Canvas.screen full_line_canvas = Some (screen_of full_line_canvas))
    by (vm_compute; reflexivity).
  assert (Hne : pyte.buffer (screen_of full_line_canvas) <> [])
    by (intros H; vm_compute in H; discriminate H).
  split; [exact Hscr|]. split; [exact Hne|].
  split; [vm_compute; reflexivity|].
  exact (proj2 (proj2 (@paintEvent_cursor_guard full_line_canvas
                         (screen_of full_line_canvas) Hscr)) Hne).
Defined.

(** A fresh canvas paints its background and the cursor in the top left
    cell. *)
Example paintEvent_fresh_canvas :
  Canvas.paintEvent fresh_canvas =
  Ok [SetFont; FillAll (ColorName "#0c0c0c");
      FillRect 0 0 9 19 (ColorRgba 255 255 255 180)].
Proof. reflexivity. Qed.

(** ** Painting: colours *)

(** Any colour pyte reports by name is painted with the one fallback
    colour. *)
Lemma fg_color_of_name (ch : pyte.Char) (name : string) :
  pyte.fg ch = PyStr name -> Canvas.fg_color ch = Ok (ColorName "#cccccc").
Proof.
  intros Hfg. unfold Canvas.fg_color. rewrite Hfg. cbn [pyval_eqb_str].
  destruct (String.eqb name "default"); cbn [negb];
    [reflexivity | destruct (String.eqb name "white"); reflexivity].
Qed.

(** Only the integers 1 and -15 select entry 1 of the table. *)
Lemma fg_color_red_needs_int (ch : pyte.Char) :
  Canvas.fg_color ch = Ok (ColorName "#c50f1f") ->
  pyte.fg ch = PyInt 1 \/ pyte.fg ch = PyInt (-15).
Proof.
  unfold Canvas.fg_color.
  destruct (pyte.fg ch) as [z|s]; cbn [pyval_eqb_str negb].
  - destruct (Z.ltb_spec z 16) as [Hlt|]; [|discriminate].
    destruct (Z.ltb_spec z (-16)) as [Hlow|Hlow].
    + assert (Hraise : py_index Canvas.COLORS_16 z =
                       Raise (Exception "IndexError" "list index out of range")).
      { unfold py_index.
        change (Z.of_nat (List.length Canvas.COLORS_16)) with 16.
        destruct (Z.ltb_spec z 0); [|lia].
        destruct (Z.ltb_spec (z + 16) 0); [reflexivity | lia]. }
      rewrite Hraise. cbn [Canvas.rbind]. discriminate.
    + assert (Hcases : z = -16 \/ z = -15 \/ z = -14 \/ z = -13 \/ z = -12 \/
                       z = -11 \/ z = -10 \/ z = -9 \/ z = -8 \/ z = -7 \/
                       z = -6 \/ z = -5 \/ z = -4 \/ z = -3 \/ z = -2 \/
                       z = -1 \/ z = 0 \/ z = 1 \/ z = 2 \/ z = 3 \/ z = 4 \/
                       z = 5 \/ z = 6 \/ z = 7 \/ z = 8 \/ z = 9 \/ z = 10 \/
                       z = 11 \/ z = 12 \/ z = 13 \/ z = 14 \/ z = 15) by lia.
      repeat (destruct Hcases as [->|Hcases];
              [cbn; intros H; first [discriminate H | auto] |]).
      subst z; cbn; discriminate.
  - destruct (String.eqb s "default"); cbn [negb];
      [| destruct (String.eqb s "white")]; discriminate.
Qed.

(** pyte stores the colour of SGR 31 as the name "red". *)
Example sgr_31_is_a_name :
  option_map (fun scr => pyte.fg (pyte.attrs (pyte.cursor scr)))
    (pyte.select_graphic_rendition [31] (pyte.new_screen 120 30))
  = Some (PyStr "red").
Proof. reflexivity. Qed.

(** C2, at the scenario of the specification.  After
    ESC[31m Red ESC[0m Normal on a fresh session, row 0 of the screen
    holds "Red" with foreground "red" and "Normal" with foreground
    "default", and [paintEvent] raises TypeError at its inner loop: no
    glyph is painted at all.  And the body of that loop would give a cell
    with foreground "red" the pen "#cccccc", which is not entry 1
    ("#c50f1f") of [COLORS_16]. *)
Theorem red_scenario_not_painted :
  let scr := screen_of (Canvas.self after_red_scenario) in
  map (fun col => option_map (fun ch => (pyte.data ch, pyte.fg ch)) (cell_at 0 col scr))
      [0; 1; 2; 3; 4; 5; 6; 7; 8]
    = [Some ("R", PyStr "red"); Some ("e", PyStr "red"); Some ("d", PyStr "red");
       Some ("N", PyStr "default"); Some ("o", PyStr "default");
       Some ("r", PyStr "default"); Some ("m", PyStr "default");
       Some ("a", PyStr "default"); Some ("l", PyStr "default")] /\
  Canvas.paintEvent (Canvas.self after_red_scenario) = Raise int_not_iterable /\
  Canvas.fg_color {| pyte.data := "R"; pyte.fg := PyStr "red"; pyte.bg := PyStr "default" |}
    = Ok (ColorName "#cccccc") /\
  py_index Canvas.COLORS_16 1 = Ok "#c50f1f".
Proof.
  cbv zeta. split; [vm_compute; reflexivity|].
  split; [vm_compute; reflexivity|]. split; reflexivity.
Qed.

(** The scenario stays inside the modelled part of pyte: the parser is
    back in its ground state, nothing was logged, a repaint is pending. *)
Example red_scenario_in_fragment :
  option_map (fun e => pyte.parser (fst e)) (Canvas.emulator (Canvas.self after_red_scenario))
    = Some pyte.Ground /\
  logger (Canvas.glob after_red_scenario) = [] /\
  Canvas.update_pending (Canvas.self after_red_scenario) = true.
Proof. vm_compute. repeat split. Qed.

(** ** The reader loop *)

Lemma run_returned (n : nat) (th : Reader.Thread) :
  Reader.loc th = Reader.Returned -> Reader.run n th = th.
Proof.
  intros Hloc. destruct n as [|n]; cbn [Reader.run]; [reflexivity|].
  unfold Reader.step. rewrite Hloc. reflexivity.
Qed.

Lemma run_stuck (n : nat) (th : Reader.Thread) :
  Reader.step th = None -> Reader.run n th = th.
Proof.
  intros Hstep. destruct n as [|n]; cbn [Reader.run]; [reflexivity|].
  now rewrite Hstep.
Qed.

Lemma blocked_step (th : Reader.Thread) :
  read_blocked th -> Reader.step th = None.
Proof.
  intros (Hloc & Halive & Hpend). unfold Reader.step, PtyProcess.read.
  now rewrite Hloc, Hpend, Halive.
Qed.

(** After [stop()] a thread that can move reaches the end of [run] in
    at most two steps. *)
Lemma stopped_run_2 (th : Reader.Thread) :
  Reader._running (Reader.me th) = false ->
  ~ read_blocked th ->
  Reader.loc (Reader.run 2 th) = Reader.Returned.
Proof.
  intros Hstop Hfree.
  destruct th as [l r p em lg]. cbn [Reader.me] in Hstop.
  unfold read_blocked in Hfree. cbn [Reader.loc Reader.pty] in Hfree.
  destruct l; cbn [Reader.run Reader.step Reader.loc Reader.me Reader.pty].
  - rewrite Hstop. cbn [andb Reader.step Reader.loc]. reflexivity.
  - unfold PtyProcess.read.
    destruct (PtyProcess.pending p) as [|d q] eqn:Hpend.
    + destruct (PtyProcess.alive p) eqn:Halive.
      * exfalso. apply Hfree. auto.
      * cbn [Reader.run Reader.step Reader.loc]. reflexivity.
    + cbn [Reader.step Reader.loc Reader.me]. rewrite Hstop. reflexivity.
  - reflexivity.
Qed.

(** C4, amended.  After [stop()] the loop starts no further read: the
    thread is inside a read only as long as it has not left the read it
    was in when [stop()] was called.  If that read can return, [run] has
    returned within two steps.  If it cannot, because the PTY is alive and
    silent, the thread does not move at all.  Terminating the PTY, which
    is what the canvas's [stop()] does next, releases the read: [run] has
    then returned within two steps in every case. *)
Theorem stop_then_terminate_exits (th : Reader.Thread) :
  (forall n, Reader.loc (Reader.run n (Reader.request_stop th)) = Reader.Reading ->
             Reader.run n (Reader.request_stop th) = Reader.request_stop th) /\
  (~ read_blocked th ->
   Reader.loc (Reader.run 2 (Reader.request_stop th)) = Reader.Returned) /\
  (read_blocked th ->
   forall n, Reader.run n (Reader.request_stop th) = Reader.request_stop th) /\
  Reader.loc (Reader.run 2 (Reader.kill (Reader.request_stop th))) = Reader.Returned.
Proof.
  split; [|split; [|split]].
  - intros n Hn.
    destruct n as [|n]; [reflexivity|].
    destruct (Reader.step (Reader.request_stop th)) as [th1|] eqn:Hstep;
      [| now apply run_stuck].
    exfalso. cbn [Reader.run] in Hn. rewrite Hstep in Hn.
    assert (Hth1 : Reader.loc th1 = Reader.Returned \/
                   (Reader.loc th1 = Reader.LoopTest /\
                    Reader._running (Reader.me th1) = false)).
    { destruct th as [l r p em lg]. unfold Reader.request_stop, Reader.step in Hstep.
      cbn [Reader.loc Reader.me Reader.pty Reader.stop Reader._running
           Reader.emitted Reader.log andb] in Hstep.
      destruct l.
      - inversion Hstep; subst th1. now left.
      - destruct (PtyProcess.read 4096 p) as [[[data|e] p']|];
          inversion Hstep; subst th1; cbn; auto.
      - discriminate. }
    destruct Hth1 as [Hret | [Hloop Hflag]].
    + rewrite (run_returned n th1 Hret) in Hn. congruence.
    + destruct n as [|n]; cbn [Reader.run] in Hn; [congruence|].
      unfold Reader.step in Hn. rewrite Hloop, Hflag in Hn. cbn [andb] in Hn.
      rewrite run_returned in Hn by reflexivity. discriminate.
  - intros Hfree. apply stopped_run_2; [reflexivity | exact Hfree].
  - intros Hblocked n. apply run_stuck, blocked_step. exact Hblocked.
  - apply stopped_run_2; [reflexivity|].
    intros (_ & Halive & _). destruct th; cbn in Halive. discriminate.
Qed.

(** C4 as stated fails: the reader of a fresh session sits in its first
    read; after [stop()], with the shell alive and silent, it is still
    there after any number of steps. *)
Lemma stop_does_not_unblock_read : ~ stop_exits_while_pty_alive.
Proof.
  intros [bound claim].
  specialize (claim waiting_reader eq_refl eq_refl).
  rewrite run_stuck in claim by reflexivity.
  discriminate claim.
Qed.

(** The canvas's [stop()] on a session with a reader and a live PTY: the
    reader is told to stop and the PTY is terminated. *)
Lemma canvas_stop_terminates
    (c : Canvas.t) (g : Globals) (r : Reader.t) (p : PtyProcess.t) :
  Canvas.reader c = Some r ->
  Canvas.pty c = Some p ->
  PtyProcess.isalive p = true ->
  Canvas.stop (Canvas.mkSt c g) =
  (Ok tt,
   Canvas.mkSt (Canvas.set_pty (Some (PtyProcess.terminate p))
                  (Canvas.set_reader (Some (Reader.stop r)) c)) g).
Proof.
  intros Hr Hp Ha.
  unfold Canvas.stop, bind, gets, when, Canvas.on_self, modify.
  cbn [Canvas.self]. rewrite Hr, Hp, Ha. reflexivity.
Qed.

(** The waiting reader of a fresh session, stopped and then deprived of
    its PTY: the read raises, nothing is logged since the reader was told
    to stop, and [finished] carries exit code 0. *)
Example waiting_reader_released :
  let th := Reader.run 2 (Reader.kill (Reader.request_stop waiting_reader)) in
  Reader.loc th = Reader.Returned /\
  Reader.emitted th = [Reader.finished 0] /\
  Reader.log th = [].
Proof. cbv zeta. repeat split. Qed.

(** ** Tabs *)

Lemma start_returns (wd sh : option string) (s : Canvas.St) :
  exists s', Canvas.start wd sh s = (Ok tt, s') /\
             Canvas.wid (Canvas.self s') = Canvas.wid (Canvas.self s).
Proof.
  destruct s as [c g].
  unfold Canvas.start, bind, gets, Canvas.logger_error, Canvas.logger_info,
    Canvas.on_self, modify, try_except, Canvas.PtyProcess_spawn, when, ret.
  cbn [Canvas.self Canvas.glob].
  destruct (HAS_WINPTY g); cbn [negb]; [|eexists; split; reflexivity].
  destruct wd as [d|]; [destruct (str_truthy d)|];
    cbn [Canvas.self Canvas.glob];
    destruct (spawn_error g); eexists; split; reflexivity.
Qed.

Lemma stop_returns (s : Canvas.St) :
  exists c', Canvas.stop s = (Ok tt, Canvas.mkSt c' (Canvas.glob s)) /\
             Canvas.wid c' = Canvas.wid (Canvas.self s).
Proof.
  destruct s as [c g].
  unfold Canvas.stop, bind, gets, Canvas.on_self, modify, when, ret.
  cbn [Canvas.self Canvas.glob].
  destruct (Canvas.reader c); cbn [Canvas.self Canvas.glob];
    (destruct (Canvas.pty c) as [p|]; [destruct (PtyProcess.isalive p)|]);
    cbn [Canvas.self Canvas.glob]; eexists; split; reflexivity.
Qed.

Lemma nth_error_last {A} (l : list A) (a : A) :
  nth_error (l ++ [a]) (List.length l) = Some a.
Proof. induction l; cbn; auto. Qed.

Lemma list_set_last {A} (l : list A) (a b : A) :
  list_set (List.length l) b (l ++ [a]) = l ++ [b].
Proof. induction l; cbn; [reflexivity | now f_equal]. Qed.

Lemma list_set_length {A} (n : nat) (v : A) (l : list A) :
  List.length (list_set n v l) = List.length l.
Proof.
  revert n; induction l as [|h t IH]; intros [|n]; cbn; auto.
Qed.

(** What [_add_terminal] does, in one equation. *)
Lemma add_terminal_run (shell : string) (w : Tabs.t) (g : Globals) :
  Tabs._add_terminal shell (Tabs.mkSt w g) = (Ok tt, after_add shell w g).
Proof.
  destruct w as [l cur fo nx].
  unfold Tabs._add_terminal, after_add, started_page, tab_label, bind, gets,
    Tabs.on_self, modify.
  cbn [Tabs.self Tabs.glob Tabs.next_wid Tabs.tabs].
  unfold Tabs.setCurrentIndex, Tabs.addTab, Tabs.bump_wid, Tabs.count.
  cbn [Tabs.tabs Tabs.currentIndex Tabs.focus Tabs.next_wid].
  rewrite length_app. cbn [List.length].
  replace ((0 <=? Z.of_nat (List.length l)) &&
           (Z.of_nat (List.length l) <? Z.of_nat (List.length l + 1)))
    with true
    by (symmetry; apply andb_true_intro; split;
        [apply Z.leb_le | apply Z.ltb_lt]; lia).
  unfold Tabs.on_page. cbn [Tabs.self Tabs.glob Tabs.tabs].
  rewrite Nat2Z.id, nth_error_last. cbn [Tabs.page Tabs.label].
  destruct (start_returns None (Some shell) (Canvas.mkSt (Canvas.init nx g) g))
    as (cs & Hstart & _).
  rewrite Hstart. cbn [snd Tabs.self Tabs.glob Tabs.set_tabs Tabs.tabs
                       Tabs.currentIndex Tabs.focus Tabs.next_wid Tabs.setFocus].
  rewrite list_set_last. reflexivity.
Qed.

(** C5, amended.  When the spawn fails, [_add_terminal] still returns
    normally: the tab has been added, with the label of the shell, as the
    current tab and with the focus; its canvas is as [__init__] left it,
    without a PTY; the failure is an error record in the logger. *)
Theorem add_terminal_spawn_failure
    (shell : string) (w : Tabs.t) (g : Globals) (e : exn) :
  HAS_WINPTY g = true ->
  spawn_error g = Some e ->
  Tabs._add_terminal shell (Tabs.mkSt w g) =
  (Ok tt,
   {| Tabs.self :=
        {| Tabs.tabs := Tabs.tabs w ++
                        [{| Tabs.label := tab_label shell w;
                            Tabs.page := Canvas.init (Tabs.next_wid w) g |}];
           Tabs.currentIndex := Tabs.count w;
           Tabs.focus := Some (Tabs.next_wid w);
           Tabs.next_wid := S (Tabs.next_wid w) |};
      Tabs.glob :=
        log_record (ERROR, String.append "Failed to start ConPTY: " (exn_str e)) g |}).
Proof.
  intros Hwin Hspawn. rewrite add_terminal_run.
  unfold after_add, started_page, Canvas.start, bind, gets,
    Canvas.logger_error, Canvas.logger_info, Canvas.on_self, modify,
    try_except, Canvas.PtyProcess_spawn, ret.
  cbn [Canvas.self Canvas.glob]. rewrite Hwin.
  cbn [negb Canvas.self Canvas.glob]. rewrite Hspawn. reflexivity.
Qed.

Lemma add_terminal_spawn_failure_witness :
  HAS_WINPTY globals_no_spawn = true /\
  spawn_error globals_no_spawn = Some spawn_refused /\
  Tabs.tabs (Tabs.self (snd (Tabs._add_terminal "powershell.exe"
                               (Tabs.mkSt Tabs.init globals_no_spawn)))) =
  [{| Tabs.label := "PowerShell 1";
      Tabs.page := Canvas.init 0 globals_no_spawn |}].
Proof.
  split; [reflexivity|]. split; [reflexivity|].
  rewrite (add_terminal_spawn_failure "powershell.exe" Tabs.init
             globals_no_spawn (e := spawn_refused) eq_refl eq_refl).
  reflexivity.
Defined.

(** C5 as stated fails: with a spawn that raises, adding the first
    terminal returns normally and leaves one tab. *)
Lemma spawn_failure_not_surfaced : ~ spawn_failure_is_surfaced.
Proof.
  intros claim.
  destruct (claim "powershell.exe" Tabs.init globals_no_spawn spawn_refused
              eq_refl eq_refl) as (s' & Hrun & _).
  rewrite add_terminal_run in Hrun. discriminate Hrun.
Qed.

Lemma widget_in_range (index : Z) (w : Tabs.t) (tb : Tabs.Tab) :
  Tabs.widget index w = Some tb ->
  0 <= index < Tabs.count w /\ nth_error (Tabs.tabs w) (Z.to_nat index) = Some tb.
Proof.
  unfold Tabs.widget, Tabs.count. intros H.
  destruct (Z.ltb_spec index 0); [discriminate|].
  split; [|exact H].
  assert (Hlt : (Z.to_nat index < List.length (Tabs.tabs w))%nat)
    by (apply nth_error_Some; congruence).
  lia.
Qed.

Lemma widget_out_of_range (index : Z) (w : Tabs.t) :
  Tabs.widget index w = None -> Tabs.removeTab index w = w.
Proof.
  unfold Tabs.widget, Tabs.removeTab, Tabs.count. intros H.
  destruct (Z.ltb_spec index 0) as [Hneg|Hpos].
  - destruct (Z.leb_spec 0 index); [lia | reflexivity].
  - apply nth_error_None in H.
    destruct (Z.ltb_spec index (Z.of_nat (List.length (Tabs.tabs w)))); [lia|].
    now rewrite andb_false_r.
Qed.

Lemma remove_nth_length {A} (n : nat) (l : list A) :
  (n < List.length l)%nat ->
  List.length (Tabs.remove_nth n l) = (List.length l - 1)%nat.
Proof.
  revert n; induction l as [|h t IH]; intros [|n] Hn; cbn in *; try lia.
  rewrite IH by lia. lia.
Qed.

Lemma stop_page_count (g : Globals) (index : Z) (w : Tabs.t) :
  Tabs.count (stop_page g index w) = Tabs.count w.
Proof.
  unfold stop_page. destruct (Tabs.widget index w); [|reflexivity].
  unfold Tabs.count, Tabs.set_tabs. cbn [Tabs.tabs].
  now rewrite list_set_length.
Qed.

Lemma removeTab_count (index : Z) (w : Tabs.t) :
  Tabs.count (Tabs.removeTab index w) =
  if (0 <=? index) && (index <? Tabs.count w) then Tabs.count w - 1
  else Tabs.count w.
Proof.
  unfold Tabs.removeTab.
  destruct (Z.leb_spec 0 index); destruct (Z.ltb_spec index (Tabs.count w));
    cbn [andb]; try reflexivity.
  unfold Tabs.count in *. cbn [Tabs.tabs].
  rewrite remove_nth_length by lia. lia.
Qed.

(** What [_close_tab] does, in one equation. *)
Lemma close_tab_run (index : Z) (w : Tabs.t) (g : Globals) :
  Tabs._close_tab index (Tabs.mkSt w g) =
  let w1 := Tabs.removeTab index (stop_page g index w) in
  (Ok tt, if Tabs.count w1 =? 0 then after_add "powershell.exe" w1 g
          else Tabs.mkSt w1 g).
Proof.
  unfold Tabs._close_tab, stop_page, bind, gets, Tabs.on_self, modify, ret.
  cbn [Tabs.self Tabs.glob].
  destruct (Tabs.widget index w) as [tb|] eqn:Hwidget.
  - apply widget_in_range in Hwidget as [_ Hnth].
    unfold Tabs.on_page. cbn [Tabs.self Tabs.glob]. rewrite Hnth.
    destruct (stop_returns (Canvas.mkSt (Tabs.page tb) g)) as (c' & Hstop & _).
    rewrite Hstop. cbn [snd Canvas.self Canvas.glob Tabs.self Tabs.glob].
    match goal with
    | |- context [Tabs.count ?w1 =? 0] => destruct (Tabs.count w1 =? 0)
    end; cbn [when]; [apply add_terminal_run | reflexivity].
  - cbn [Tabs.self Tabs.glob].
    match goal with
    | |- context [Tabs.count ?w1 =? 0] => destruct (Tabs.count w1 =? 0)
    end; cbn [when]; [apply add_terminal_run | reflexivity].
Qed.

Lemma after_add_count (shell : string) (w : Tabs.t) (g : Globals) :
  Tabs.count (Tabs.self (after_add shell w g)) = Tabs.count w + 1.
Proof.
  unfold after_add, Tabs.count. cbn [Tabs.self Tabs.tabs].
  rewrite length_app. cbn [List.length]. lia.
Qed.

(** [start()] with the default arguments in a process where winpty is
    there and the spawn succeeds: the canvas holds the new process and a
    running reader. *)
Lemma start_spawns (shell : string) (w : Tabs.t) (g : Globals) :
  HAS_WINPTY g = true ->
  spawn_error g = None ->
  str_truthy shell = true ->
  Canvas.pty (Canvas.self (started_page shell w g)) =
    Some (PtyProcess.spawn [shell] (home g) (30, 120)) /\
  Canvas.reader (Canvas.self (started_page shell w g)) = Some Reader.init.
Proof.
  intros Hwin Hspawn Hshell.
  unfold started_page, Canvas.start, bind, gets, Canvas.logger_error,
    Canvas.logger_info, Canvas.on_self, modify, try_except,
    Canvas.PtyProcess_spawn, ret.
  cbn [Canvas.self Canvas.glob]. rewrite Hwin.
  cbn [negb Canvas.self Canvas.glob]. rewrite Hspawn, Hshell.
  split; reflexivity.
Qed.

(** C7.  [_close_tab] returns normally and leaves at least one tab,
    whatever the index.  Closing the only tab leaves exactly one: a tab
    labelled "PowerShell 1" whose canvas was created by this call and
    started with the default shell; where winpty is there and the spawn
    succeeds, that canvas holds a newly spawned powershell.exe and a
    running reader. *)
Theorem close_tab_keeps_a_tab (index : Z) (w : Tabs.t) (g : Globals) :
  exists s',
    Tabs._close_tab index (Tabs.mkSt w g) = (Ok tt, s') /\
    1 <= Tabs.count (Tabs.self s') /\
    (Tabs.count w = 1 -> index = 0 ->
     Tabs.tabs (Tabs.self s') =
       [{| Tabs.label := "PowerShell 1";
           Tabs.page := Canvas.self (started_page "powershell.exe" w g) |}] /\
     (HAS_WINPTY g = true -> spawn_error g = None ->
      Canvas.pty (Canvas.self (started_page "powershell.exe" w g)) =
        Some (PtyProcess.spawn ["powershell.exe"] (home g) (30, 120)) /\
      Canvas.reader (Canvas.self (started_page "powershell.exe" w g)) =
        Some Reader.init)).
Proof.
  rewrite close_tab_run. cbv zeta.
  set (w1 := Tabs.removeTab index (stop_page g index w)).
  assert (Hcount : Tabs.count w1 =
                   if (0 <=? index) && (index <? Tabs.count w)
                   then Tabs.count w - 1 else Tabs.count w).
  { unfold w1. rewrite removeTab_count, stop_page_count. reflexivity. }
  assert (Hnonneg : 0 <= Tabs.count w1) by (unfold Tabs.count; lia).
  eexists; split; [reflexivity|]. split.
  - destruct (Z.eqb_spec (Tabs.count w1) 0) as [Hz|Hnz].
    + rewrite after_add_count. lia.
    + cbn [Tabs.self]. lia.
  - intros Hone ->. split.
    + rewrite Hone in Hcount. cbn in Hcount. rewrite Hcount. cbn [Z.eqb].
      destruct w as [l cur fo nx]. unfold Tabs.count in Hone.
      cbn [Tabs.tabs] in Hone.
      destruct l as [|tb [|tb2 l]]; cbn [List.length] in Hone; try lia.
      reflexivity.
    + intros Hwin Hspawn. now apply start_spawns.
Qed.

Lemma close_tab_keeps_a_tab_witness :
  Tabs.count (Tabs.self one_tab) = 1 /\
  HAS_WINPTY (Tabs.glob one_tab) = true /\
  spawn_error (Tabs.glob one_tab) = None /\
  exists s' tb,
    Tabs._close_tab 0 (Tabs.mkSt (Tabs.self one_tab) (Tabs.glob one_tab)) = (Ok tt, s') /\
    Tabs.tabs (Tabs.self s') = [tb] /\
    Tabs.label tb = "PowerShell 1" /\
    Canvas.pty (Tabs.page tb) =
      Some (PtyProcess.spawn ["powershell.exe"] "C:\Users\dev" (30, 120)).
Proof.
  split; [reflexivity|]. split; [reflexivity|]. split; [reflexivity|].
  destruct (close_tab_keeps_a_tab 0 (Tabs.self one_tab) (Tabs.glob one_tab))
    as (s' & Hrun & _ & Honly).
  destruct (Honly eq_refl eq_refl) as (Htabs & Hshell).
  destruct (Hshell eq_refl eq_refl) as (Hpty & _).
  exists s'. eexists. split; [exact Hrun|]. split; [exact Htabs|].
  split; [reflexivity | exact Hpty].
Defined.

(** ** Focus *)

Lemma started_page_wid (shell : string) (w : Tabs.t) (g : Globals) :
  Canvas.wid (Canvas.self (started_page shell w g)) = Tabs.next_wid w.
Proof.
  unfold started_page.
  destruct (start_returns None (Some shell)
              (Canvas.mkSt (Canvas.init (Tabs.next_wid w) g) g))
    as (cs & Hstart & Hwid).
  rewrite Hstart. cbn [snd]. rewrite Hwid. reflexivity.
Qed.

Lemma find_page_last (id n : nat) (l : list Tabs.Tab) (tb : Tabs.Tab) :
  Forall (fun t => (Canvas.wid (Tabs.page t) < id)%nat) l ->
  Canvas.wid (Tabs.page tb) = id ->
  Tabs.find_page id n (l ++ [tb]) = Some (n + List.length l)%nat.
Proof.
  intros Hold Hnew. revert n.
  induction Hold as [|t l Ht Hl IH]; intros n; cbn [app Tabs.find_page List.length].
  - rewrite Hnew, Nat.eqb_refl. f_equal. lia.
  - destruct (Nat.eqb_spec (Canvas.wid (Tabs.page t)) id); [lia|].
    rewrite IH. f_equal. lia.
Qed.

(** The identity kept for the next widget plays no part in the delivery
    of a key. *)
Lemma deliver_key_bump_wid (ev : QKeyEvent) (w : Tabs.t) (g : Globals) :
  Tabs.deliver_key ev (Tabs.mkSt (Tabs.bump_wid w) g) =
  (fst (Tabs.deliver_key ev (Tabs.mkSt w g)),
   Tabs.mkSt (Tabs.bump_wid (Tabs.self (snd (Tabs.deliver_key ev (Tabs.mkSt w g)))))
             (Tabs.glob (snd (Tabs.deliver_key ev (Tabs.mkSt w g))))).
Proof.
  unfold Tabs.deliver_key, bind, gets. cbn [Tabs.self Tabs.bump_wid Tabs.focus Tabs.tabs].
  destruct (Tabs.focus w) as [id|]; [|reflexivity].
  destruct (Tabs.find_page id 0 (Tabs.tabs w)) as [idx|]; [|reflexivity].
  unfold Tabs.on_page. cbn [Tabs.self Tabs.glob Tabs.tabs Tabs.bump_wid].
  destruct (nth_error (Tabs.tabs w) idx) as [tb|]; [|reflexivity].
  destruct (Canvas.keyPressEvent ev _) as [r cs]. reflexivity.
Qed.

(** C10, at the "+" button.  [new_tab_btn.clicked] is connected to
    [_add_terminal] itself, so a click calls it with the [checked] bool.
    The call raises AttributeError at [shell.lower()]: the canvas has
    been created, but no tab is added, the current tab stays and the
    keyboard focus stays where it was, so that a key press delivered next
    goes where it went before the click.  The CMD button, connected
    through a lambda, adds its terminal. *)
Theorem plus_button_adds_no_tab
    (checked : bool) (w : Tabs.t) (g : Globals) (ev : QKeyEvent) :
  let clicked := Tabs.new_tab_btn_clicked checked (Tabs.mkSt w g) in
  let before := Tabs.deliver_key ev (Tabs.mkSt w g) in
  let after := Tabs.deliver_key ev (snd clicked) in
  clicked =
    (Raise (Exception "AttributeError" "'bool' object has no attribute 'lower'"),
     Tabs.mkSt {| Tabs.tabs := Tabs.tabs w;
                  Tabs.currentIndex := Tabs.currentIndex w;
                  Tabs.focus := Tabs.focus w;
                  Tabs.next_wid := S (Tabs.next_wid w) |} g) /\
  (fst after = fst before /\
   Tabs.tabs (Tabs.self (snd after)) = Tabs.tabs (Tabs.self (snd before)) /\
   Tabs.focus (Tabs.self (snd after)) = Tabs.focus (Tabs.self (snd before)) /\
   Tabs.glob (snd after) = Tabs.glob (snd before)) /\
  Tabs.cmd_btn_clicked checked (Tabs.mkSt w g) = (Ok tt, after_add "cmd.exe" w g).
Proof.
  cbv zeta. split; [reflexivity|]. split.
  - change (snd (Tabs.new_tab_btn_clicked checked (Tabs.mkSt w g)))
      with (Tabs.mkSt (Tabs.bump_wid w) g).
    rewrite deliver_key_bump_wid. cbn [fst snd Tabs.self Tabs.glob].
    repeat split.
  - unfold Tabs.cmd_btn_clicked, Tabs._add_terminal_call. apply add_terminal_run.
Qed.

(** One terminal open and focused, then a click on "+": still one tab,
    and the key "a" reaches the terminal that was there. *)
Example plus_button_on_one_tab :
  let clicked := snd (Tabs.new_tab_btn_clicked false one_tab) in
  labels (Tabs.self clicked) = ["PowerShell 1"] /\
  Tabs.focus (Tabs.self clicked) = Some 0%nat /\
  map (fun tb => option_map PtyProcess.written (Canvas.pty (Tabs.page tb)))
      (Tabs.tabs (Tabs.self (snd (Tabs.deliver_key key_a_event clicked))))
    = [Some ["a"]].
Proof. vm_compute. repeat split. Qed.

(** With a str argument [_add_terminal] returns normally with the new
    session as the last tab, as the current tab, and with the keyboard
    focus.  A key press delivered right after it is handled by the new
    session's canvas and leaves the tabs that were there before as they
    were. *)
Theorem add_terminal_takes_focus
    (shell : string) (w : Tabs.t) (g : Globals) (ev : QKeyEvent) :
  wids_fresh w ->
  let s1 := after_add shell w g in
  let new_page := Canvas.self (started_page shell w g) in
  Tabs._add_terminal shell (Tabs.mkSt w g) = (Ok tt, s1) /\
  Tabs.widget (Tabs.currentIndex (Tabs.self s1)) (Tabs.self s1) =
    Some {| Tabs.label := tab_label shell w; Tabs.page := new_page |} /\
  Tabs.focus (Tabs.self s1) = Some (Canvas.wid new_page) /\
  exists r cs,
    Canvas.keyPressEvent ev (Canvas.mkSt new_page (Tabs.glob s1)) = (r, cs) /\
    Tabs.deliver_key ev s1 =
      (r, {| Tabs.self :=
               Tabs.set_tabs
                 (Tabs.tabs w ++ [{| Tabs.label := tab_label shell w;
                                     Tabs.page := Canvas.self cs |}])
                 (Tabs.self s1);
             Tabs.glob := Canvas.glob cs |}).
Proof.
  intros Hfresh s1 new_page.
  split; [apply add_terminal_run|].
  split.
  { unfold s1, after_add, Tabs.widget, Tabs.count.
    cbn [Tabs.self Tabs.currentIndex Tabs.tabs].
    destruct (Z.ltb_spec (Z.of_nat (List.length (Tabs.tabs w))) 0); [lia|].
    rewrite Nat2Z.id. apply nth_error_last. }
  split.
  { unfold new_page. rewrite started_page_wid. reflexivity. }
  destruct (Canvas.keyPressEvent ev (Canvas.mkSt new_page (Tabs.glob s1)))
    as [r cs] eqn:Hkey.
  exists r, cs. split; [reflexivity|].
  unfold Tabs.deliver_key, bind, gets.
  unfold s1 at 1 2. unfold after_add at 1 2.
  cbn [Tabs.self Tabs.focus Tabs.tabs].
  rewrite (@find_page_last (Tabs.next_wid w) 0 (Tabs.tabs w)
             {| Tabs.label := tab_label shell w;
                Tabs.page := Canvas.self (started_page shell w g) |}
             Hfresh (started_page_wid shell w g)).
  cbn [Nat.add]. unfold Tabs.on_page.
  unfold s1 at 1 2. unfold after_add at 1 2.
  cbn [Tabs.self Tabs.tabs Tabs.glob].
  rewrite nth_error_last. cbn [Tabs.page Tabs.label].
  fold new_page. change (Canvas.glob (started_page shell w g)) with (Tabs.glob s1).
  rewrite Hkey.
  change (Tabs.tabs (Tabs.self s1))
    with (Tabs.tabs w ++ [{| Tabs.label := tab_label shell w;
                             Tabs.page := new_page |}]).
  rewrite list_set_last. reflexivity.
Qed.

Lemma add_terminal_takes_focus_witness :
  wids_fresh (Tabs.self one_tab) /\
  Tabs.focus (Tabs.self one_tab) = Some 0%nat /\
  Tabs.focus (Tabs.self two_tabs) = Some 1%nat /\
  Tabs.currentIndex (Tabs.self two_tabs) = 1 /\
  map (fun tb => option_map PtyProcess.written (Canvas.pty (Tabs.page tb)))
      (Tabs.tabs (Tabs.self (snd (Tabs.deliver_key key_a_event two_tabs))))
    = [Some []; Some ["a"]].
Proof.
  assert (Hfresh : wids_fresh (Tabs.self one_tab))
    by (repeat constructor).
  split; [exact Hfresh|].
  split; [reflexivity|]. split; [reflexivity|]. split; [reflexivity|].
  destruct (add_terminal_takes_focus "cmd.exe" (Tabs.glob one_tab)
              key_a_event Hfresh) as (_ & _ & _ & r & cs & Hkey & Hdeliver).
  change (after_add "cmd.exe" (Tabs.self one_tab) (Tabs.glob one_tab))
    with two_tabs in Hdeliver.
  rewrite Hdeliver. cbn [snd Tabs.self Tabs.set_tabs Tabs.tabs].
  vm_compute in Hkey. inversion Hkey; subst cs. reflexivity.
Defined.

(** The identities stay fresh: in the empty tab widget, after adding a
    terminal, and after closing a tab. *)
Lemma wids_fresh_init : wids_fresh Tabs.init.
Proof. constructor. Qed.

Lemma wids_fresh_add (shell : string) (w : Tabs.t) (g : Globals) :
  wids_fresh w -> wids_fresh (Tabs.self (after_add shell w g)).
Proof.
  unfold wids_fresh, after_add. cbn [Tabs.self Tabs.tabs Tabs.next_wid].
  intros Hw. apply Forall_app. split.
  - eapply Forall_impl; [|exact Hw]. cbn beta. intros tb Htb. lia.
  - constructor; [|constructor]. cbn [Tabs.page].
    rewrite started_page_wid. lia.
Qed.

Lemma Forall_list_set {A} (P : A -> Prop) (n : nat) (v : A) (l : list A) :
  Forall P l -> P v -> Forall P (list_set n v l).
Proof.
  intros Hl Hv. revert n.
  induction Hl as [|h t Hh Ht IH]; intros [|n]; cbn [list_set];
    constructor; auto.
Qed.

Lemma Forall_remove_nth {A} (P : A -> Prop) (n : nat) (l : list A) :
  Forall P l -> Forall P (Tabs.remove_nth n l).
Proof.
  intros Hl. revert n.
  induction Hl as [|h t Hh Ht IH]; intros [|n]; cbn [Tabs.remove_nth];
    try constructor; auto.
Qed.

Lemma wids_fresh_stop_page (g : Globals) (index : Z) (w : Tabs.t) :
  wids_fresh w -> wids_fresh (stop_page g index w).
Proof.
  unfold stop_page. intros Hw.
  destruct (Tabs.widget index w) as [tb|] eqn:Hwidget; [|exact Hw].
  apply widget_in_range in Hwidget as [_ Hnth].
  unfold wids_fresh, Tabs.set_tabs. cbn [Tabs.tabs Tabs.next_wid].
  apply Forall_list_set; [exact Hw|]. cbn [Tabs.page].
  destruct (stop_returns (Canvas.mkSt (Tabs.page tb) g)) as (c' & Hstop & Hwid).
  rewrite Hstop. cbn [snd Canvas.self]. rewrite Hwid. cbn [Canvas.self].
  unfold wids_fresh in Hw. rewrite Forall_forall in Hw.
  apply Hw. eapply nth_error_In; exact Hnth.
Qed.

Lemma wids_fresh_removeTab (index : Z) (w : Tabs.t) :
  wids_fresh w -> wids_fresh (Tabs.removeTab index w).
Proof.
  unfold Tabs.removeTab. intros Hw.
  destruct ((0 <=? index) && (index <? Tabs.count w)); [|exact Hw].
  unfold wids_fresh. cbn [Tabs.tabs Tabs.next_wid].
  now apply Forall_remove_nth.
Qed.

Lemma wids_fresh_close (index : Z) (w : Tabs.t) (g : Globals) :
  wids_fresh w ->
  wids_fresh (Tabs.self (snd (Tabs._close_tab index (Tabs.mkSt w g)))).
Proof.
  intros Hw. rewrite close_tab_run. cbv zeta. cbn [snd].
  pose proof (wids_fresh_removeTab index (wids_fresh_stop_page g index Hw)) as Hw1.
  destruct (Tabs.count (Tabs.removeTab index (stop_page g index w)) =? 0).
  - now apply wids_fresh_add.
  - exact Hw1.
Qed.

(* ===================================================================== *)
(** * Further properties *)
(* ===================================================================== *)

(** ** start, stop and the keys in between *)

(** X1.  [start] never raises and makes exactly one log record.  The record is
    an INFO exactly when winpty is there and the spawn succeeds; then the
    canvas holds a new process running [shell or "powershell.exe"] in the
    canvas's working directory with dimensions (rows, cols), and a running
    reader.  Otherwise the record is an ERROR and the canvas keeps the PTY
    and reader it had.  Grid size, screen and buffer are never touched. *)
Theorem start_logs_once_and_spawns
    (wd sh : option string) (c : Canvas.t) (g : Globals) :
  exists c' lvl msg,
    Canvas.start wd sh (Canvas.mkSt c g) =
      (Ok tt, Canvas.mkSt c' (log_record (lvl, msg) g)) /\
    (lvl = INFO <-> HAS_WINPTY g = true /\ spawn_error g = None) /\
    (lvl = INFO ->
       Canvas.pty c' =
         Some (PtyProcess.spawn [shell_or_default sh] (Canvas.working_dir c')
                 (Canvas.rows c, Canvas.cols c)) /\
       Canvas.reader c' = Some Reader.init) /\
    (lvl = ERROR -> Canvas.pty c' = Canvas.pty c /\ Canvas.reader c' = Canvas.reader c) /\
    Canvas.cols c' = Canvas.cols c /\ Canvas.rows c' = Canvas.rows c /\
    Canvas.emulator c' = Canvas.emulator c /\ Canvas._buffer c' = Canvas._buffer c.
Proof.
  unfold Canvas.start, shell_or_default, bind, gets, Canvas.logger_error,
    Canvas.logger_info, Canvas.on_self, modify, try_except,
    Canvas.PtyProcess_spawn, when, ret.
  cbn [Canvas.self Canvas.glob].
  destruct (HAS_WINPTY g) eqn:Hwin; cbn [negb].
  - destruct wd as [d|]; [destruct (str_truthy d)|];
      cbn [Canvas.self Canvas.glob];
      destruct (spawn_error g) as [e|] eqn:Hspawn;
      cbn [Canvas.self Canvas.glob];
      do 3 eexists; (split; [reflexivity|]);
      repeat split; intros; try discriminate; try reflexivity;
      try (destruct H; discriminate).
  - do 3 eexists. split; [reflexivity|].
    repeat split; intros; try discriminate; try reflexivity;
      try (destruct H; discriminate).
Qed.

Lemma write_frame (data : string) (c : Canvas.t) (g : Globals) :
  exists p' g',
    Canvas._write data (Canvas.mkSt c g) = (Ok tt, Canvas.mkSt (Canvas.set_pty p' c) g') /\
    (has_live_pty c = false -> p' = Canvas.pty c /\ g' = g).
Proof.
  unfold Canvas._write, has_live_pty, bind, gets, when, try_except, lift,
    Canvas.on_self, Canvas.logger_error, modify, ret.
  cbn [Canvas.self Canvas.glob].
  destruct c as [id cs rs cw chh em buf pt rd wd up].
  cbn [Canvas.pty Canvas.set_pty].
  destruct pt as [p|]; [|do 2 eexists; split; [reflexivity | auto]].
  destruct (PtyProcess.isalive p) eqn:Ha;
    [|do 2 eexists; split; [reflexivity | auto]].
  destruct (PtyProcess.write data p) as [p'|e];
    do 2 eexists; (split; [reflexivity | discriminate]).
Qed.

(** X2.  A key press on a canvas that holds no live PTY changes nothing: no
    bytes are sent, nothing is logged, nothing raises. *)
Theorem keys_dropped_without_live_pty
    (ev : QKeyEvent) (c : Canvas.t) (g : Globals) :
  has_live_pty c = false ->
  Canvas.keyPressEvent ev (Canvas.mkSt c g) = (Ok tt, Canvas.mkSt c g).
Proof.
  intros Hdead. rewrite keyPressEvent_by_table.
  destruct (amended_mapping_table ev) as [bytes|]; [|reflexivity].
  destruct (write_frame bytes c g) as (p' & g' & Hrun & Hsame).
  destruct (Hsame Hdead) as [-> ->]. rewrite Hrun.
  destruct c; reflexivity.
Qed.

Lemma keys_dropped_without_live_pty_witness :
  has_live_pty dead_canvas = false /\
  Canvas.keyPressEvent ctrl_c_event (Canvas.mkSt dead_canvas globals0) =
  (Ok tt, Canvas.mkSt dead_canvas globals0).
Proof.
  split; [reflexivity|].
  exact (keys_dropped_without_live_pty ctrl_c_event dead_canvas globals0 eq_refl).
Defined.

Lemma stop_leaves_no_live_pty (s : Canvas.St) :
  has_live_pty (Canvas.self (snd (Canvas.stop s))) = false.
Proof.
  destruct s as [c g].
  unfold Canvas.stop, has_live_pty, bind, gets, Canvas.on_self, modify, when, ret.
  cbn [Canvas.self Canvas.glob].
  destruct (Canvas.reader c); cbn [Canvas.self Canvas.glob];
    (destruct (Canvas.pty c) as [p|] eqn:Hp;
     [destruct (PtyProcess.isalive p) eqn:Ha|]);
    cbn [snd Canvas.self Canvas.pty Canvas.set_pty Canvas.set_reader];
    rewrite ?Hp, ?Ha; reflexivity.
Qed.

(** X3.  After [stop()] the session is inert: every key press leaves the
    canvas and the logger exactly as [stop()] left them. *)
Theorem keys_dropped_after_stop (ev : QKeyEvent) (s : Canvas.St) :
  Canvas.keyPressEvent ev (snd (Canvas.stop s)) = (Ok tt, snd (Canvas.stop s)).
Proof.
  pose proof (stop_leaves_no_live_pty s) as Hdead.
  destruct (snd (Canvas.stop s)) as [c1 g1]. cbn [Canvas.self] in Hdead.
  rewrite keyPressEvent_by_table.
  destruct (amended_mapping_table ev) as [bytes|]; [|reflexivity].
  destruct (write_frame bytes c1 g1) as (p' & g' & Hrun & Hsame).
  destruct (Hsame Hdead) as [-> ->]. rewrite Hrun.
  destruct c1; reflexivity.
Qed.

(** X4.  [stop()] is idempotent: a second [stop()] changes nothing. *)
Theorem stop_idempotent (s : Canvas.St) :
  Canvas.stop (snd (Canvas.stop s)) = (Ok tt, snd (Canvas.stop s)).
Proof.
  destruct s as [c g].
  destruct c as [id cs rs cw chh em buf pt rd wd up].
  unfold Canvas.stop, bind, gets, Canvas.on_self, modify, when, ret.
  cbn [Canvas.self Canvas.glob Canvas.reader Canvas.pty].
  destruct rd as [r|]; destruct pt as [p|];
    cbn [snd Canvas.self Canvas.glob Canvas.reader Canvas.pty
         Canvas.set_pty Canvas.set_reader];
    try reflexivity;
    destruct (PtyProcess.isalive p) eqn:Ha;
    cbn [snd Canvas.self Canvas.glob Canvas.reader Canvas.pty
         Canvas.set_pty Canvas.set_reader PtyProcess.isalive
         PtyProcess.terminate PtyProcess.alive];
    rewrite ?Ha; reflexivity.
Qed.

(** X5.  Key input has no local echo: whatever the key and the state of the
    PTY, [keyPressEvent] returns normally and leaves the grid size, the
    screen, the fallback buffer, the reader, the working directory and the
    repaint request as they were. *)
Theorem keyPressEvent_no_echo (ev : QKeyEvent) (c : Canvas.t) (g : Globals) :
  exists c' g',
    Canvas.keyPressEvent ev (Canvas.mkSt c g) = (Ok tt, Canvas.mkSt c' g') /\
    Canvas.cols c' = Canvas.cols c /\ Canvas.rows c' = Canvas.rows c /\
    Canvas.emulator c' = Canvas.emulator c /\
    Canvas._buffer c' = Canvas._buffer c /\
    Canvas.reader c' = Canvas.reader c /\
    Canvas.working_dir c' = Canvas.working_dir c /\
    Canvas.update_pending c' = Canvas.update_pending c.
Proof.
  rewrite keyPressEvent_by_table.
  destruct (amended_mapping_table ev) as [bytes|].
  - destruct (write_frame bytes c g) as (p' & g' & Hrun & _).
    exists (Canvas.set_pty p' c), g'. split; [exact Hrun|].
    repeat split.
  - exists c, g. repeat split.
Qed.

(** ** Resizing, continued *)

(** What [resizeEvent] does, in one equation. *)
Lemma resizeEvent_run (c : Canvas.t) (g : Globals) (width height : Z) :
  Canvas.char_width c <> 0 ->
  Canvas.char_height c <> 0 ->
  Canvas.resizeEvent width height (Canvas.mkSt c g) =
  (Ok tt,
   Canvas.mkSt
     (let new_cols := Z.max 80 (width / Canvas.char_width c) in
      let new_rows := Z.max 24 (height / Canvas.char_height c) in
      if (new_cols =? Canvas.cols c) && (new_rows =? Canvas.rows c) then c
      else resized new_cols new_rows c)
     g).
Proof.
  intros Hw Hh.
  unfold Canvas.resizeEvent, resized, resized_pty, bind, gets, lift.
  cbn [Canvas.self].
  rewrite (floordiv_nonzero width Hw), (floordiv_nonzero height Hh).
  cbv zeta.
  set (new_cols := Z.max 80 (width / Canvas.char_width c)).
  set (new_rows := Z.max 24 (height / Canvas.char_height c)).
  clearbody new_cols new_rows.
  destruct c as [id cs rs cw chh em buf pt rd wd up].
  cbn [Canvas.cols Canvas.rows Canvas.emulator Canvas.pty].
  destruct (new_cols =? cs) eqn:Ec; destruct (new_rows =? rs) eqn:Er;
    cbn [negb orb andb when]; try reflexivity.
  all: unfold bind, Canvas.on_self, modify, when, try_except, lift, ret;
    cbn [Canvas.self Canvas.glob];
    destruct em as [[st scr]|]; destruct pt as [p|];
    cbn [option_map fst snd];
    repeat match goal with
           | |- context [PtyProcess.isalive ?q] => destruct (PtyProcess.isalive q)
           | |- context [PtyProcess.setwinsize ?a ?b ?q] =>
               destruct (PtyProcess.setwinsize a b q)
           end;
    reflexivity.
Qed.

Lemma resized_dims (nc nr : Z) (c : Canvas.t) :
  Canvas.cols (resized nc nr c) = nc /\ Canvas.rows (resized nc nr c) = nr /\
  Canvas.char_width (resized nc nr c) = Canvas.char_width c /\
  Canvas.char_height (resized nc nr c) = Canvas.char_height c.
Proof. repeat split. Qed.

(** X6.  The grid never gets smaller than 80 x 24: after any [resizeEvent]
    that returns, cols >= 80 and rows >= 24, whatever the pixel size. *)
Theorem resizeEvent_minimum_grid (c : Canvas.t) (g : Globals) (width height : Z) :
  Canvas.char_width c <> 0 ->
  Canvas.char_height c <> 0 ->
  let c' := Canvas.self (snd (Canvas.resizeEvent width height (Canvas.mkSt c g))) in
  80 <= Canvas.cols c' /\ 24 <= Canvas.rows c'.
Proof.
  intros Hw Hh. rewrite (@resizeEvent_run c g width height Hw Hh).
  cbv zeta. cbn [snd Canvas.self].
  destruct (Z.eqb_spec (Z.max 80 (width / Canvas.char_width c)) (Canvas.cols c));
    destruct (Z.eqb_spec (Z.max 24 (height / Canvas.char_height c)) (Canvas.rows c));
    cbn [andb];
    try (destruct (resized_dims (Z.max 80 (width / Canvas.char_width c))
                    (Z.max 24 (height / Canvas.char_height c)) c)
           as (-> & -> & _));
    lia.
Qed.

Lemma resizeEvent_minimum_grid_witness :
  Canvas.char_width live_canvas <> 0 /\
  Canvas.char_height live_canvas <> 0 /\
  let c' := Canvas.self (snd (Canvas.resizeEvent 10 10
                                (Canvas.mkSt live_canvas globals0))) in
  80 <= Canvas.cols c' /\ 24 <= Canvas.rows c'.
Proof.
  split; [discriminate|]. split; [discriminate|].
  apply (@resizeEvent_minimum_grid live_canvas globals0 10 10); discriminate.
Defined.

(** X7.  A second [resizeEvent] with the same pixel size changes nothing: the
    screen is not resized again and the PTY is not asked again. *)
Theorem resizeEvent_idempotent (c : Canvas.t) (g : Globals) (width height : Z) :
  Canvas.char_width c <> 0 ->
  Canvas.char_height c <> 0 ->
  let s1 := snd (Canvas.resizeEvent width height (Canvas.mkSt c g)) in
  Canvas.resizeEvent width height s1 = (Ok tt, s1).
Proof.
  intros Hw Hh. rewrite (@resizeEvent_run c g width height Hw Hh).
  cbv zeta. cbn [snd].
  set (nc := Z.max 80 (width / Canvas.char_width c)).
  set (nr := Z.max 24 (height / Canvas.char_height c)).
  destruct (Z.eqb_spec nc (Canvas.cols c)) as [Ec|Ec];
    [destruct (Z.eqb_spec nr (Canvas.rows c)) as [Er|Er]|]; cbn [andb].
  - rewrite (@resizeEvent_run c g width height Hw Hh). cbv zeta.
    fold nc nr. rewrite Ec, Er, !Z.eqb_refl. reflexivity.
  - rewrite resizeEvent_run by assumption. cbv zeta.
    cbn [resized Canvas.cols Canvas.rows Canvas.char_width Canvas.char_height
         Canvas.set_pty Canvas.set_emulator Canvas.set_dims].
    fold nc nr. rewrite !Z.eqb_refl. reflexivity.
  - rewrite resizeEvent_run by assumption. cbv zeta.
    cbn [resized Canvas.cols Canvas.rows Canvas.char_width Canvas.char_height
         Canvas.set_pty Canvas.set_emulator Canvas.set_dims].
    fold nc nr. rewrite !Z.eqb_refl. reflexivity.
Qed.

Lemma resizeEvent_idempotent_witness :
  Canvas.char_width live_canvas <> 0 /\
  Canvas.char_height live_canvas <> 0 /\
  let s1 := snd (Canvas.resizeEvent 1800 950 (Canvas.mkSt live_canvas globals0)) in
  Canvas.resizeEvent 1800 950 s1 = (Ok tt, s1).
Proof.
  split; [discriminate|]. split; [discriminate|].
  apply (@resizeEvent_idempotent live_canvas globals0 1800 950); discriminate.
Defined.

(** X8.  With a character cell of width or height zero the division raises:
    [resizeEvent] ends with ZeroDivisionError and has changed nothing. *)
Theorem resizeEvent_zero_cell (c : Canvas.t) (g : Globals) (width height : Z) :
  Canvas.char_width c = 0 \/ Canvas.char_height c = 0 ->
  Canvas.resizeEvent width height (Canvas.mkSt c g) =
  (Raise zero_division, Canvas.mkSt c g).
Proof.
  intros Hzero.
  unfold Canvas.resizeEvent, bind, gets, lift, py_floordiv.
  cbn [Canvas.self].
  destruct (Z.eqb_spec (Canvas.char_width c) 0) as [Hw|Hw]; [reflexivity|].
  destruct Hzero as [Hz|Hz]; [contradiction|].
  rewrite Hz. reflexivity.
Qed.

Lemma resizeEvent_zero_cell_witness :
  (Canvas.char_width fontless_canvas = 0 \/ Canvas.char_height fontless_canvas = 0) /\
  Canvas.resizeEvent 1800 950 (Canvas.mkSt fontless_canvas globals_no_font) =
  (Raise zero_division, Canvas.mkSt fontless_canvas globals_no_font).
Proof.
  split; [left; reflexivity|].
  apply (@resizeEvent_zero_cell fontless_canvas globals_no_font 1800 950).
  left; reflexivity.
Defined.

Lemma pyte_resize_dims (nr nc : Z) (scr : pyte.Screen) :
  nr <> 0 -> nc <> 0 ->
  pyte.columns (pyte.resize nr nc scr) = nc /\ pyte.lines (pyte.resize nr nc scr) = nr.
Proof.
  intros Hr Hc. unfold pyte.resize.
  destruct (Z.eqb_spec nr 0); [contradiction|].
  destruct (Z.eqb_spec nc 0); [contradiction|].
  destruct (Z.eqb_spec nr (pyte.lines scr)); destruct (Z.eqb_spec nc (pyte.columns scr));
    cbn [andb pyte.columns pyte.lines]; auto.
Qed.

Lemma dims_synced_init (id : nat) (g : Globals) : dims_synced (Canvas.init id g).
Proof.
  unfold dims_synced, Canvas.init. cbn [Canvas.emulator Canvas.pty Canvas.cols Canvas.rows].
  split.
  - intros st scr Hem. destruct (HAS_PYTE g); [|discriminate].
    inversion Hem; subst. split; reflexivity.
  - intros p Hp. discriminate.
Qed.

Lemma dims_synced_start (wd sh : option string) (c : Canvas.t) (g : Globals) :
  dims_synced c ->
  dims_synced (Canvas.self (snd (Canvas.start wd sh (Canvas.mkSt c g)))).
Proof.
  intros [Hscr Hpty].
  destruct c as [id cs rs cw chh em buf pt rd wdir up].
  unfold dims_synced in *.
  cbn [Canvas.emulator Canvas.pty Canvas.cols Canvas.rows] in *.
  unfold Canvas.start, bind, gets, Canvas.logger_error,
    Canvas.logger_info, Canvas.on_self, modify, try_except,
    Canvas.PtyProcess_spawn, when, ret.
  cbn [Canvas.self Canvas.glob].
  destruct (HAS_WINPTY g); cbn [negb snd Canvas.self]; [|split; assumption].
  destruct wd as [d|]; [destruct (str_truthy d)|];
    cbn [Canvas.self Canvas.glob];
    destruct (spawn_error g);
    cbn [snd Canvas.self Canvas.emulator Canvas.pty Canvas.cols Canvas.rows
         Canvas.set_pty Canvas.set_reader Canvas.set_working_dir];
    (split; [assumption|]); try assumption;
    intros p Hp _ _; inversion Hp; reflexivity.
Qed.

(** X9.  [resizeEvent] keeps the three sizes together: if canvas, screen and
    PTY agreed on the grid before, they agree after, with rows and columns
    handed to [screen.resize] and [setwinsize] in the right order. *)
Theorem resizeEvent_keeps_sync (c : Canvas.t) (g : Globals) (width height : Z) :
  Canvas.char_width c <> 0 ->
  Canvas.char_height c <> 0 ->
  dims_synced c ->
  dims_synced (Canvas.self (snd (Canvas.resizeEvent width height (Canvas.mkSt c g)))).
Proof.
  intros Hw Hh Hsync. rewrite (@resizeEvent_run c g width height Hw Hh).
  cbv zeta. cbn [snd Canvas.self].
  set (nc := Z.max 80 (width / Canvas.char_width c)).
  set (nr := Z.max 24 (height / Canvas.char_height c)).
  destruct ((nc =? Canvas.cols c) && (nr =? Canvas.rows c)); [exact Hsync|].
  assert (Hnc : nc <> 0) by (unfold nc; lia).
  assert (Hnr : nr <> 0) by (unfold nr; lia).
  unfold dims_synced, resized, resized_pty.
  cbn [Canvas.emulator Canvas.pty Canvas.cols Canvas.rows
       Canvas.set_pty Canvas.set_emulator Canvas.set_dims].
  split.
  - intros st scr Hem.
    destruct (Canvas.emulator c) as [[st0 scr0]|]; [|discriminate].
    cbn [option_map fst snd] in Hem. inversion Hem; subst.
    now apply pyte_resize_dims.
  - intros p Hp Ha He.
    destruct (Canvas.pty c) as [p0|]; [|discriminate].
    destruct (PtyProcess.isalive p0) eqn:Ha0.
    + unfold PtyProcess.setwinsize in Hp.
      destruct (PtyProcess.setwinsize_error p0) eqn:He0.
      * inversion Hp; subst. congruence.
      * inversion Hp; subst. reflexivity.
    + inversion Hp; subst. congruence.
Qed.

Lemma resizeEvent_keeps_sync_witness :
  Canvas.char_width live_canvas <> 0 /\
  Canvas.char_height live_canvas <> 0 /\
  dims_synced live_canvas /\
  dims_synced (Canvas.self (snd (Canvas.resizeEvent 1800 950
                                   (Canvas.mkSt live_canvas globals0)))).
Proof.
  assert (Hsync : dims_synced live_canvas)
    by exact (@dims_synced_start None None fresh_canvas globals0 (dims_synced_init 0 globals0)).
  split; [discriminate|]. split; [discriminate|]. split; [exact Hsync|].
  apply (@resizeEvent_keeps_sync live_canvas globals0 1800 950); [discriminate | discriminate | exact Hsync].
Defined.

(** ** Painting, continued *)

Lemma slice_last_rows {A} (l : list A) (r : Z) :
  0 < r -> py_slice_from l (- r) = last_n (Z.to_nat r) l.
Proof.
  intros Hr. unfold py_slice_from, last_n.
  destruct (Z.ltb_spec (- r) 0); [|lia].
  f_equal. lia.
Qed.

Lemma paint_lines_glyphs (chh : Z) (ls : list string) :
  forall i, Canvas.paint_lines chh ((i + 1) * chh) ls = line_glyphs chh i ls.
Proof.
  induction ls as [|line ls IH]; intros i; cbn [Canvas.paint_lines line_glyphs];
    [reflexivity|].
  f_equal. replace ((i + 1) * chh + chh) with ((i + 1 + 1) * chh) by lia.
  apply IH.
Qed.

Lemma last_n_length {A} (n : nat) (l : list A) :
  List.length (last_n n l) = Nat.min n (List.length l).
Proof. unfold last_n. rewrite length_skipn. lia. Qed.

Lemma line_glyphs_length (chh i : Z) (ls : list string) :
  List.length (line_glyphs chh i ls) = List.length ls.
Proof.
  revert i; induction ls as [|l ls IH]; intros i; cbn; [reflexivity|].
  now rewrite IH.
Qed.

(** [rstrip] takes off Unicode white space, not only the ASCII one:
    here a no-break space (U+00A0), a tab and a line separator (U+2028). *)
Example rstrip_unicode_space :
  rstrip (String.append "ls"
            (String (ascii_of_nat 194) (String (ascii_of_nat 160)
            (String (ascii_of_nat 9)
            (String (ascii_of_nat 226) (String (ascii_of_nat 128)
            (String (ascii_of_nat 168) EmptyString)))))))
  = "ls" /\
  rstrip " a b " = " a b".
Proof. vm_compute. split; reflexivity. Qed.

(** X12.  Without pyte the canvas shows the tail of what it received: the last
    [rows] chunks of the buffer (all of them when there are fewer), each
    stripped of trailing white space, chunk i at x = 5 on the baseline
    (i + 1) * char_height, in light grey; never more than [rows] lines and
    no cursor. *)
Theorem paintEvent_fallback_tail (c : Canvas.t) :
  Canvas.screen c = None ->
  0 < Canvas.rows c ->
  let shown := line_glyphs (Canvas.char_height c) 0
                 (last_n (Z.to_nat (Canvas.rows c)) (Canvas._buffer c)) in
  Canvas.paintEvent c =
    Ok ([SetFont; FillAll (ColorName "#0c0c0c"); SetPen (ColorName "#cccccc")] ++ shown) /\
  List.length shown = Nat.min (Z.to_nat (Canvas.rows c)) (List.length (Canvas._buffer c)).
Proof.
  intros Hscr Hrows. cbv zeta. split.
  - unfold Canvas.paintEvent. rewrite Hscr, (slice_last_rows _ Hrows).
    cbn [app]. do 4 f_equal.
    replace (Canvas.char_height c) with ((0 + 1) * Canvas.char_height c) at 2 by lia.
    apply paint_lines_glyphs.
  - now rewrite line_glyphs_length, last_n_length.
Qed.

Lemma paintEvent_fallback_tail_witness :
  Canvas.screen plain_canvas_3 = None /\
  0 < Canvas.rows plain_canvas_3 /\
  Canvas.paintEvent plain_canvas_3 =
    Ok [SetFont; FillAll (ColorName "#0c0c0c"); SetPen (ColorName "#cccccc");
        DrawText 5 18 "C:\> dir"; DrawText 5 36 "a.txt"; DrawText 5 54 "b.txt"].
Proof.
  split; [reflexivity|]. split; [reflexivity|].
  exact (proj1 (@paintEvent_fallback_tail plain_canvas_3 eq_refl eq_refl)).
Defined.

(** ** Incoming data, continued *)

Lemma on_data_plain (stream_feed : string -> pyte.Stream * pyte.Screen ->
                                   (pyte.Stream * pyte.Screen) * option exn)
    (data : string) (c : Canvas.t) (g : Globals) :
  Canvas.emulator c = None ->
  Canvas._on_data stream_feed data (Canvas.mkSt c g) =
  (Ok tt,
   Canvas.mkSt
     (Canvas.set_update_pending true
        (Canvas.set_buffer (Canvas._buffer c ++ [decode_utf8_replace data]) c)) g).
Proof.
  intros Hem.
  unfold Canvas._on_data, try_except, bind, gets, Canvas.on_self, modify.
  cbn [Canvas.self Canvas.glob]. rewrite Hem. reflexivity.
Qed.

(** X13.  Without pyte nothing is lost or reordered: after any number of
    chunks the buffer is what it was followed by the decoded chunks in
    the order of arrival (one entry per chunk, control sequences and all),
    pyte stays absent and the logger is untouched. *)
Theorem on_data_buffers_in_order
    (stream_feed : string -> pyte.Stream * pyte.Screen ->
                   (pyte.Stream * pyte.Screen) * option exn)
    (chunks : list string) (s : Canvas.St) :
  Canvas.emulator (Canvas.self s) = None ->
  let s' := on_data_all stream_feed chunks s in
  Canvas._buffer (Canvas.self s') =
    Canvas._buffer (Canvas.self s) ++ map decode_utf8_replace chunks /\
  Canvas.emulator (Canvas.self s') = None /\
  Canvas.glob s' = Canvas.glob s.
Proof.
  revert s. unfold on_data_all.
  induction chunks as [|d chunks IH]; intros s Hem; cbn [fold_left map].
  - rewrite app_nil_r. auto.
  - destruct s as [c g]. cbn [Canvas.self] in Hem.
    rewrite (@on_data_plain stream_feed d c g Hem). cbn [snd].
    match goal with
    | |- context [fold_left _ chunks ?s1] =>
        destruct (IH s1 Hem) as (Hbuf & Hnone & Hglob)
    end.
    cbv zeta in Hbuf, Hnone, Hglob.
    rewrite Hbuf, Hnone, Hglob.
    cbn [Canvas.self Canvas.glob Canvas._buffer Canvas.set_update_pending
         Canvas.set_buffer].
    rewrite <- app_assoc. auto.
Qed.

Lemma on_data_buffers_in_order_witness :
  Canvas.emulator plain_canvas = None /\
  Canvas._buffer (Canvas.self
    (on_data_all Canvas.pyte_feed ["dir"; String (ascii_of_nat 255) "x"]
       (Canvas.mkSt plain_canvas globals_no_pyte)))
  = ["dir"; String.append REPLACEMENT "x"].
Proof.
  split; [reflexivity|].
  exact (proj1 (@on_data_buffers_in_order Canvas.pyte_feed
                  ["dir"; String (ascii_of_nat 255) "x"]
                  (Canvas.mkSt plain_canvas globals_no_pyte) eq_refl)).
Defined.

(** X14.  With pyte, whatever the stream did to the screen is kept, also when
    it raised.  A repaint is requested only when it did not raise; when it
    raised, the repaint request stays as it was and the error is logged.
    Buffer, PTY and grid size are not touched. *)
Theorem on_data_keeps_feed_result
    (stream_feed : string -> pyte.Stream * pyte.Screen ->
                   (pyte.Stream * pyte.Screen) * option exn)
    (data : string) (c : Canvas.t) (g : Globals)
    (e e' : pyte.Stream * pyte.Screen) (err : option exn) :
  Canvas.emulator c = Some e ->
  stream_feed (decode_utf8_replace data) e = (e', err) ->
  exists c' g',
    Canvas._on_data stream_feed data (Canvas.mkSt c g) = (Ok tt, Canvas.mkSt c' g') /\
    Canvas.emulator c' = Some e' /\
    Canvas._buffer c' = Canvas._buffer c /\ Canvas.pty c' = Canvas.pty c /\
    Canvas.cols c' = Canvas.cols c /\ Canvas.rows c' = Canvas.rows c /\
    match err with
    | None => Canvas.update_pending c' = true /\ g' = g
    | Some ex =>
        Canvas.update_pending c' = Canvas.update_pending c /\
        g' = log_record (ERROR, String.append "Data handling error: " (exn_str ex)) g
    end.
Proof.
  intros Hem Hfeed.
  unfold Canvas._on_data, try_except, bind, gets, Canvas.feed_stream,
    Canvas.on_self, Canvas.logger_error, modify.
  cbn [Canvas.self Canvas.glob]. rewrite Hem, Hfeed.
  destruct err as [ex|]; cbn [Canvas.self Canvas.glob];
    do 2 eexists; (split; [reflexivity|]); repeat split.
Qed.

Lemma on_data_keeps_feed_result_witness :
  Canvas.emulator fresh_canvas = Some (pyte.mkStream pyte.Ground, pyte.new_screen 120 30) /\
  exists c' g',
    Canvas._on_data choking_feed "x" (Canvas.mkSt fresh_canvas globals0)
      = (Ok tt, Canvas.mkSt c' g') /\
    option_map (fun e => pyte.x (pyte.cursor (snd e))) (Canvas.emulator c') = Some 1 /\
    Canvas.update_pending c' = false /\
    logger g' = [(ERROR, "Data handling error: bad sequence")].
Proof.
  split; [reflexivity|].
  destruct (@on_data_keeps_feed_result choking_feed "x" fresh_canvas globals0
              _ _ _ eq_refl eq_refl)
    as (c' & g' & Hrun & Hem & _ & _ & _ & _ & Hup & Hg).
  exists c', g'. split; [exact Hrun|].
  rewrite Hem, Hup, Hg. repeat split.
Defined.

(** ** The reader loop, continued *)

(** X15.  A process that is not alive at the loop test is never read from:
    [run] returns at once, emits only [finished] with the exit status
    (0 when there is none), and leaves pending output unread. *)
Theorem reader_skips_dead_process (r : Reader.t) (p : PtyProcess.t) (n : nat) :
  PtyProcess.isalive p = false ->
  Reader.run (S n) (Reader.start r p) =
  {| Reader.loc := Reader.Returned; Reader.me := r; Reader.pty := p;
     Reader.emitted := [Reader.finished (Reader.exit_code_of p)];
     Reader.log := [] |}.
Proof.
  intros Hdead. cbn [Reader.run].
  unfold Reader.step, Reader.start. cbn [Reader.loc Reader.me Reader.pty
    Reader.emitted Reader.log].
  rewrite Hdead, andb_false_r. cbn [app].
  now apply run_returned.
Qed.

Lemma reader_skips_dead_process_witness :
  PtyProcess.isalive exited_pty = false /\
  let th := Reader.run 5 (Reader.start Reader.init exited_pty) in
  Reader.emitted th = [Reader.finished 3] /\
  PtyProcess.pending (Reader.pty th) = ["bye"].
Proof.
  split; [reflexivity|]. cbv zeta.
  rewrite (@reader_skips_dead_process Reader.init exited_pty 4 eq_refl).
  split; reflexivity.
Defined.

Lemma payloads_app (a b : list Reader.Signal) :
  payloads (a ++ b) = payloads a ++ payloads b.
Proof.
  induction a as [|[d|code] a IH]; cbn [app payloads]; [reflexivity | | exact IH].
  now rewrite IH.
Qed.

Lemma append_assoc (a b c : string) :
  String.append (String.append a b) c = String.append a (String.append b c).
Proof. induction a as [|x a IH]; cbn; [reflexivity | now rewrite IH]. Qed.

Lemma append_empty_r (a : string) : String.append a EmptyString = a.
Proof. induction a as [|x a IH]; cbn; [reflexivity | now rewrite IH]. Qed.

Lemma concat_str_app (a b : list string) :
  concat_str (a ++ b) = String.append (concat_str a) (concat_str b).
Proof.
  induction a as [|x a IH]; cbn [app concat_str fold_right]; [reflexivity|].
  fold (concat_str (a ++ b)). fold (concat_str a).
  now rewrite IH, append_assoc.
Qed.

Lemma substring_all (d : string) : String.substring 0 (String.length d) d = d.
Proof. induction d as [|x d IH]; cbn; [reflexivity | now rewrite IH]. Qed.

Lemma substring_split (n : nat) (d : string) :
  String.append (String.substring 0 n d)
                (String.substring n (String.length d - n) d) = d.
Proof.
  revert n. induction d as [|x d IH]; intros [|n]; cbn; try reflexivity.
  - now rewrite substring_all.
  - now rewrite IH.
Qed.

Lemma step_keeps_stream (th th1 : Reader.Thread) :
  Reader.step th = Some th1 -> stream_of th1 = stream_of th.
Proof.
  destruct th as [l r p em lg]. unfold Reader.step, stream_of.
  cbn [Reader.loc Reader.me Reader.pty Reader.emitted Reader.log].
  destruct l.
  - destruct (Reader._running r && PtyProcess.isalive p);
      intros H; inversion H; subst th1; cbn [Reader.emitted Reader.pty];
      [reflexivity|].
    now rewrite payloads_app, app_nil_r.
  - unfold PtyProcess.read. generalize (Z.to_nat 4096) as n. intros n.
    destruct (PtyProcess.pending p) as [|d q] eqn:Hpend.
    + destruct (PtyProcess.alive p); [discriminate|].
      intros H; inversion H; subst th1; cbn [Reader.emitted Reader.pty].
      now rewrite payloads_app, app_nil_r, Hpend.
    + intros H; inversion H; subst th1; cbn [Reader.emitted Reader.pty]. clear H.
      set (pre := String.substring 0 n d).
      set (rest := String.substring n (String.length d - n) d).
      assert (Hsplit : String.append pre rest = d) by apply substring_split.
      assert (Hpayload :
                concat_str (payloads (em ++ (if str_truthy pre
                                             then [Reader.data_ready pre] else [])))
                = String.append (concat_str (payloads em)) pre).
      { destruct pre; cbn [str_truthy].
        - now rewrite app_nil_r, append_empty_r.
        - rewrite payloads_app, concat_str_app. cbn [payloads concat_str fold_right].
          now rewrite append_empty_r. }
      rewrite Hpayload, append_assoc. f_equal.
      cbn [concat_str fold_right]. fold (concat_str q). rewrite <- Hsplit.
      rewrite append_assoc. f_equal.
      destruct rest; cbn [PtyProcess.pending PtyProcess.with_pending];
        reflexivity.
  - discriminate.
Qed.

(** X16.  Nothing the child writes is lost, duplicated or reordered by the
    reader: however the loop is interleaved with [stop()], termination
    and new output, the payloads emitted so far followed by what is still
    pending in the PTY are the output pending at [start()] followed by the
    output produced since. *)
Theorem reader_keeps_stream_order
    (r : Reader.t) (p : PtyProcess.t) (out : list string) (th : Reader.Thread) :
  reaches (Reader.start r p) out th ->
  stream_of th =
    String.append (concat_str (PtyProcess.pending p)) (concat_str out).
Proof.
  intros Hreach.
  assert (Hgen : forall th0 out0 th1, reaches th0 out0 th1 ->
                   stream_of th1 = String.append (stream_of th0) (concat_str out0)).
  { clear. induction 1 as [th0 | th0 th1 th2 out0 Hstep _ IH
                           | th0 th2 out0 _ IH | th0 th2 out0 _ IH
                           | th0 th2 d out0 _ IH].
    - cbn. now rewrite append_empty_r.
    - now rewrite IH, (@step_keeps_stream th0 th1 Hstep).
    - exact IH.
    - exact IH.
    - rewrite IH. unfold stream_of, produce.
      cbn [Reader.emitted Reader.pty PtyProcess.pending PtyProcess.with_pending].
      rewrite concat_str_app. cbn [concat_str fold_right].
      now rewrite append_empty_r, !append_assoc. }
  rewrite (Hgen _ _ _ Hreach). reflexivity.
Qed.

Lemma reader_keeps_stream_order_witness :
  exists th,
    reaches (Reader.start Reader.init prompting_pty) ["dir"] th /\
    Reader.emitted th = [Reader.data_ready "PS C:\> "] /\
    stream_of th = "PS C:\> dir".
Proof.
  eexists. split; [|split].
  - eapply reaches_step; [reflexivity|].
    eapply reaches_produce.
    eapply reaches_step; [reflexivity|].
    apply reaches_here.
  - reflexivity.
  - refine (@reader_keeps_stream_order Reader.init prompting_pty ["dir"] _ _).
    eapply reaches_step; [reflexivity|].
    eapply reaches_produce.
    eapply reaches_step; [reflexivity|].
    apply reaches_here.
Defined.

Lemma map_data_ready_app (a b : list string) :
  map Reader.data_ready (a ++ b) = map Reader.data_ready a ++ map Reader.data_ready b.
Proof. apply map_app. Qed.

Lemma step_keeps_signals (th th1 : Reader.Thread) :
  Reader.step th = Some th1 -> signals_well_formed th -> signals_well_formed th1.
Proof.
  destruct th as [l r p em lg]. unfold Reader.step, signals_well_formed, closing_signal.
  cbn [Reader.loc Reader.me Reader.pty Reader.emitted Reader.log].
  destruct l.
  - destruct (Reader._running r && PtyProcess.isalive p);
      intros H [Hem Hne]; inversion H; subst th1;
      cbn [Reader.loc Reader.emitted Reader.pty]; [now split|].
    rewrite payloads_app, !app_nil_r in *. split; [|exact Hne].
    now rewrite <- Hem.
  - unfold PtyProcess.read. generalize (Z.to_nat 4096) as n. intros n.
    destruct (PtyProcess.pending p) as [|d q].
    + destruct (PtyProcess.alive p); [discriminate|].
      intros H [Hem Hne]; inversion H; subst th1;
        cbn [Reader.loc Reader.emitted Reader.pty].
      rewrite payloads_app, !app_nil_r in *. split; [|exact Hne].
      now rewrite <- Hem.
    + intros H [Hem Hne]; inversion H; subst th1;
        cbn [Reader.loc Reader.emitted Reader.pty]. clear H.
      rewrite app_nil_r in *.
      destruct (String.substring 0 n d) as [|x pre] eqn:Hpre;
        cbn [str_truthy]; rewrite ?app_nil_r; [now split|].
      rewrite payloads_app. cbn [payloads]. split.
      * now rewrite map_data_ready_app, <- Hem.
      * apply Forall_app. split; [exact Hne|]. constructor; [discriminate | constructor].
  - discriminate.
Qed.

(** X17.  However the loop is interleaved with [stop()], termination and new
    output, what the reader has emitted is a run of [data_ready] signals,
    none with an empty payload, followed by [finished] exactly when [run]
    has returned: [finished] comes once, last, and with
    [exitstatus or 0]. *)
Theorem reader_finished_once_and_last
    (r : Reader.t) (p : PtyProcess.t) (out : list string) (th : Reader.Thread) :
  reaches (Reader.start r p) out th ->
  exists ds,
    Reader.emitted th = map Reader.data_ready ds ++ closing_signal th /\
    Forall (fun d => d <> EmptyString) ds.
Proof.
  intros Hreach.
  assert (Hgen : forall th0 out0 th1, reaches th0 out0 th1 ->
                   signals_well_formed th0 -> signals_well_formed th1).
  { clear. induction 1 as [th0 | th0 th1 th2 out0 Hstep _ IH
                           | th0 th2 out0 _ IH | th0 th2 out0 _ IH
                           | th0 th2 d out0 _ IH]; intros Hwf.
    - exact Hwf.
    - apply IH. exact (@step_keeps_signals th0 th1 Hstep Hwf).
    - apply IH. exact Hwf.
    - apply IH. exact Hwf.
    - apply IH. exact Hwf. }
  assert (Hstart : signals_well_formed (Reader.start r p))
    by (split; [reflexivity | constructor]).
  destruct (Hgen _ _ _ Hreach Hstart) as [Hem Hne].
  eexists. split; [exact Hem | exact Hne].
Qed.

Lemma reader_finished_once_and_last_witness :
  exists th,
    reaches (Reader.start Reader.init prompting_pty) [] th /\
    Reader.emitted th = [Reader.data_ready "PS C:\> "; Reader.finished 0] /\
    exists ds,
      Reader.emitted th = map Reader.data_ready ds ++ closing_signal th /\
      Forall (fun d => d <> EmptyString) ds.
Proof.
  assert (Hreach :
            reaches (Reader.start Reader.init prompting_pty) []
              (Reader.run 1 (Reader.request_stop
                 (Reader.run 2 (Reader.start Reader.init prompting_pty))))).
  { eapply reaches_step; [reflexivity|].
    eapply reaches_step; [reflexivity|].
    eapply reaches_stop.
    eapply reaches_step; [reflexivity|].
    apply reaches_here. }
  eexists. split; [exact Hreach|]. split; [reflexivity|].
  exact (@reader_finished_once_and_last _ _ _ _ Hreach).
Defined.

(** ** Tabs, continued *)

Lemma widget_none (index : Z) (w : Tabs.t) :
  index < 0 \/ Tabs.count w <= index -> Tabs.widget index w = None.
Proof.
  unfold Tabs.widget, Tabs.count. intros Hout.
  destruct (Z.ltb_spec index 0); [reflexivity|].
  apply nth_error_None. lia.
Qed.

(** X18.  Closing a tab that is not there, on a widget that has tabs, changes
    nothing: no session is stopped, no tab removed or added, nothing
    logged. *)
Theorem close_tab_out_of_range (index : Z) (w : Tabs.t) (g : Globals) :
  Tabs.tabs w <> [] ->
  index < 0 \/ Tabs.count w <= index ->
  Tabs._close_tab index (Tabs.mkSt w g) = (Ok tt, Tabs.mkSt w g).
Proof.
  intros Hne Hout. rewrite close_tab_run. cbv zeta.
  pose proof (widget_none w Hout) as Hnone.
  unfold stop_page. rewrite Hnone, (widget_out_of_range index w Hnone).
  destruct (Z.eqb_spec (Tabs.count w) 0) as [Hz|]; [|reflexivity].
  exfalso. unfold Tabs.count in Hz. destruct (Tabs.tabs w); [now apply Hne|].
  cbn [List.length] in Hz. lia.
Qed.

Lemma close_tab_out_of_range_witness :
  Tabs.tabs (Tabs.self two_tabs) <> [] /\
  (7 < 0 \/ Tabs.count (Tabs.self two_tabs) <= 7) /\
  Tabs._close_tab 7 (Tabs.mkSt (Tabs.self two_tabs) (Tabs.glob two_tabs)) =
  (Ok tt, Tabs.mkSt (Tabs.self two_tabs) (Tabs.glob two_tabs)).
Proof.
  split; [discriminate|]. split; [right; discriminate|].
  apply (@close_tab_out_of_range 7 (Tabs.self two_tabs) (Tabs.glob two_tabs)).
  - discriminate.
  - right; discriminate.
Defined.

(** X19.  On a tab widget without tabs, [_close_tab] with any index opens a
    PowerShell terminal: the "at least one tab" rule fires although
    nothing was closed. *)
Theorem close_tab_on_empty (index : Z) (w : Tabs.t) (g : Globals) :
  Tabs.tabs w = [] ->
  Tabs._close_tab index (Tabs.mkSt w g) = (Ok tt, after_add "powershell.exe" w g).
Proof.
  intros Hempty. rewrite close_tab_run. cbv zeta.
  assert (Hcount : Tabs.count w = 0) by (unfold Tabs.count; now rewrite Hempty).
  assert (Hnone : Tabs.widget index w = None)
    by (apply widget_none; lia).
  unfold stop_page. rewrite Hnone, (widget_out_of_range index w Hnone), Hcount.
  reflexivity.
Qed.

Lemma close_tab_on_empty_witness :
  Tabs.tabs Tabs.init = [] /\
  labels (Tabs.self (snd (Tabs._close_tab 0 (Tabs.mkSt Tabs.init globals0))))
    = ["PowerShell 1"].
Proof.
  split; [reflexivity|].
  rewrite (@close_tab_on_empty 0 Tabs.init globals0 eq_refl). reflexivity.
Defined.

Lemma remove_nth_list_set {A} (n : nat) (v : A) (l : list A) :
  Tabs.remove_nth n (list_set n v l) = Tabs.remove_nth n l.
Proof.
  revert n; induction l as [|h t IH]; intros [|n]; cbn; auto.
  now rewrite IH.
Qed.

(** X20.  Closing one of several tabs removes exactly that tab: the pages that
    remain are the other pages, untouched and in their order, no tab is
    added and nothing is logged. *)
Theorem close_tab_removes_only_that_tab (index : Z) (w : Tabs.t) (g : Globals) :
  0 <= index < Tabs.count w ->
  2 <= Tabs.count w ->
  Tabs._close_tab index (Tabs.mkSt w g) = (Ok tt, Tabs.mkSt (Tabs.removeTab index w) g) /\
  Tabs.tabs (Tabs.removeTab index w) = Tabs.remove_nth (Z.to_nat index) (Tabs.tabs w).
Proof.
  intros Hin Hmany.
  assert (Hrange : (0 <=? index) && (index <? Tabs.count w) = true).
  { apply andb_true_intro. split; [apply Z.leb_le | apply Z.ltb_lt]; lia. }
  assert (Hsame : Tabs.removeTab index (stop_page g index w) = Tabs.removeTab index w).
  { unfold stop_page. destruct (Tabs.widget index w) as [tb|]; [|reflexivity].
    unfold Tabs.removeTab.
    assert (Hc : Tabs.count (Tabs.set_tabs
                   (list_set (Z.to_nat index)
                      {| Tabs.label := Tabs.label tb;
                         Tabs.page := Canvas.self (snd (Canvas.stop
                                        (Canvas.mkSt (Tabs.page tb) g))) |}
                      (Tabs.tabs w)) w) = Tabs.count w).
    { unfold Tabs.count, Tabs.set_tabs. cbn [Tabs.tabs]. now rewrite list_set_length. }
    rewrite Hc, Hrange. unfold Tabs.set_tabs.
    cbn [Tabs.tabs Tabs.currentIndex Tabs.focus Tabs.next_wid].
    now rewrite remove_nth_list_set. }
  split.
  - rewrite close_tab_run. cbv zeta. rewrite Hsame.
    destruct (Z.eqb_spec (Tabs.count (Tabs.removeTab index w)) 0) as [Hz|];
      [|reflexivity].
    rewrite removeTab_count, Hrange in Hz. lia.
  - unfold Tabs.removeTab. rewrite Hrange. reflexivity.
Qed.

Lemma close_tab_removes_only_that_tab_witness :
  0 <= 0 < Tabs.count (Tabs.self two_tabs) /\
  2 <= Tabs.count (Tabs.self two_tabs) /\
  labels (Tabs.self (snd (Tabs._close_tab 0
            (Tabs.mkSt (Tabs.self two_tabs) (Tabs.glob two_tabs))))) = ["CMD 2"].
Proof.
  assert (Hin : 0 <= 0 < Tabs.count (Tabs.self two_tabs))
    by (split; [discriminate | reflexivity]).
  assert (Hmany : 2 <= Tabs.count (Tabs.self two_tabs)) by discriminate.
  split; [exact Hin|]. split; [exact Hmany|].
  rewrite (proj1 (@close_tab_removes_only_that_tab 0 (Tabs.self two_tabs)
                    (Tabs.glob two_tabs) Hin Hmany)).
  reflexivity.
Defined.

(** X21.  Tabs are numbered by position at the time they are added.
    Calling [_add_terminal] with one argument after the other keeps the
    tabs that were there; every str argument adds one tab, labelled
    "PowerShell n" or "CMD n" with n running from count + 1, whether or
    not the shell could be spawned; a bool argument (the call of the "+"
    button) adds none. *)
Theorem add_terminals_numbered (args : list Tabs.ShellArg) (s : Tabs.St) :
  labels (Tabs.self (add_all args s)) =
    labels (Tabs.self s)
    ++ numbered_labels (Tabs.count (Tabs.self s) + 1) (shell_strings args) /\
  Tabs.count (Tabs.self (add_all args s)) =
    Tabs.count (Tabs.self s) + Z.of_nat (List.length (shell_strings args)).
Proof.
  revert s. unfold add_all.
  induction args as [|[sh|checked] args IH]; intros [w g];
    cbn [fold_left shell_strings numbered_labels List.length].
  - rewrite app_nil_r. split; [reflexivity | lia].
  - cbn [Tabs._add_terminal_call]. rewrite add_terminal_run. cbn [snd].
    destruct (IH (after_add sh w g)) as [Hlabels Hcount].
    rewrite Hlabels, Hcount, after_add_count. split; [|cbn [Tabs.self]; lia].
    unfold labels, after_add. cbn [Tabs.self Tabs.tabs].
    rewrite map_app, <- app_assoc. reflexivity.
  - exact (IH (Tabs.mkSt (Tabs.bump_wid w) g)).
Qed.

Example add_terminals_with_a_click :
  labels (Tabs.self (add_all [Tabs.ShellStr "powershell.exe"; Tabs.Checked false;
                              Tabs.ShellStr "cmd.exe"]
                       (Tabs.mkSt Tabs.init globals0)))
  = ["PowerShell 1"; "CMD 2"].
Proof. vm_compute. reflexivity. Qed.

(** The number in a label is no identity: after the first of two tabs is
    closed, the next tab added is again number 2. *)
Example labels_can_repeat :
  labels (Tabs.self (snd (Tabs._add_terminal "powershell.exe"
            (snd (Tabs._close_tab 0 two_tabs))))) = ["CMD 2"; "PowerShell 2"].
Proof. vm_compute. reflexivity. Qed.

(** ** Across the classes *)

(** X22.  The canvas's [stop()] always gets its reader thread out of [run]:
    wherever the thread stands, also blocked in a read on a silent shell,
    once [stop()] has run the thread has returned after at most two steps
    of its own. *)
Theorem canvas_stop_releases_reader
    (c : Canvas.t) (g : Globals) (l : Reader.Loc)
    (em : list Reader.Signal) (lg : list LogRecord) (th : Reader.Thread) :
  reader_thread c l em lg = Some th ->
  exists th',
    reader_thread (Canvas.self (snd (Canvas.stop (Canvas.mkSt c g)))) l em lg = Some th' /\
    Reader.loc (Reader.run 2 th') = Reader.Returned.
Proof.
  unfold reader_thread.
  destruct (Canvas.reader c) as [r|] eqn:Hr; [|discriminate].
  destruct (Canvas.pty c) as [p|] eqn:Hp; [|discriminate].
  intros _.
  unfold Canvas.stop, bind, gets, Canvas.on_self, modify, when, ret.
  cbn [Canvas.self Canvas.glob]. rewrite Hr, Hp.
  destruct (PtyProcess.isalive p) eqn:Ha;
    cbn [snd Canvas.self Canvas.reader Canvas.pty Canvas.set_pty Canvas.set_reader];
    rewrite ?Hp; eexists; (split; [reflexivity|]);
    (apply stopped_run_2; [reflexivity|]);
    intros (_ & Halive & _); cbn [Reader.pty PtyProcess.terminate PtyProcess.alive] in Halive;
    unfold PtyProcess.isalive in Ha; congruence.
Qed.

Lemma canvas_stop_releases_reader_witness :
  reader_thread live_canvas Reader.Reading [] [] = Some waiting_reader /\
  Reader.step waiting_reader = None /\
  exists th',
    reader_thread (Canvas.self (snd (Canvas.stop (Canvas.mkSt live_canvas globals0))))
      Reader.Reading [] [] = Some th' /\
    Reader.loc (Reader.run 2 th') = Reader.Returned.
Proof.
  split; [reflexivity|]. split; [reflexivity|].
  exact (@canvas_stop_releases_reader live_canvas globals0 Reader.Reading [] []
           waiting_reader eq_refl).
Defined.

(** X23.  Modifiers other than Control never matter, and Control matters for
    C, D, Z and L only: two key events with the same key and text are
    handled alike if they agree on Control or the key is none of the
    four. *)
Theorem keyPressEvent_modifiers (k m m' : Z) (t : string) :
  int_truthy (Z.land m Qt.ControlModifier) = int_truthy (Z.land m' Qt.ControlModifier)
  \/ control_key k = false ->
  Canvas.keyPressEvent {| key := k; modifiers := m; text := t |} =
  Canvas.keyPressEvent {| key := k; modifiers := m'; text := t |}.
Proof.
  unfold Canvas.keyPressEvent, control_key. cbn [key modifiers text].
  intros [Hsame | Hother].
  - rewrite Hsame. reflexivity.
  - apply orb_false_elim in Hother as [Hother HL].
    apply orb_false_elim in Hother as [Hother HZ].
    apply orb_false_elim in Hother as [HC HD].
    rewrite HC, HD, HZ, HL.
    destruct (int_truthy (Z.land m Qt.ControlModifier));
      destruct (int_truthy (Z.land m' Qt.ControlModifier)); reflexivity.
Qed.

Lemma keyPressEvent_modifiers_witness :
  control_key Qt.Key_Up = false /\
  Canvas.keyPressEvent {| key := Qt.Key_Up; modifiers := Qt.ControlModifier; text := EmptyString |} =
  Canvas.keyPressEvent {| key := Qt.Key_Up; modifiers := 0; text := EmptyString |}.
Proof.
  split; [reflexivity|].
  apply (@keyPressEvent_modifiers Qt.Key_Up Qt.ControlModifier 0 EmptyString).
  right; reflexivity.
Defined.

Lemma remove_nth_last {A} (l : list A) (a : A) :
  Tabs.remove_nth (List.length l) (l ++ [a]) = l.
Proof. induction l as [|h t IH]; cbn; [reflexivity | now rewrite IH]. Qed.

(** X24.  Adding a terminal to a widget that has tabs and closing it again
    gives back the tabs that were there, untouched and in their order;
    no replacement is opened and the close logs nothing. *)
Theorem add_then_close_restores_tabs (shell : string) (w : Tabs.t) (g : Globals) :
  Tabs.tabs w <> [] ->
  let s1 := snd (Tabs._add_terminal shell (Tabs.mkSt w g)) in
  let s2 := snd (Tabs._close_tab (Tabs.count w) s1) in
  Tabs.tabs (Tabs.self s2) = Tabs.tabs w /\ Tabs.glob s2 = Tabs.glob s1.
Proof.
  intros Hne. cbv zeta. rewrite add_terminal_run. cbn [snd].
  assert (Hpos : 1 <= Tabs.count w).
  { unfold Tabs.count. destruct (Tabs.tabs w); [now destruct Hne|].
    cbn [List.length]. lia. }
  pose proof (after_add_count shell w g) as Hcount1.
  change (after_add shell w g)
    with (Tabs.mkSt (Tabs.self (after_add shell w g)) (Tabs.glob (after_add shell w g))).
  set (w1 := Tabs.self (after_add shell w g)) in *.
  set (g1 := Tabs.glob (after_add shell w g)).
  rewrite close_tab_run. cbv zeta.
  assert (Hrange : (0 <=? Tabs.count w) && (Tabs.count w <? Tabs.count w1) = true).
  { apply andb_true_intro. split; [apply Z.leb_le | apply Z.ltb_lt]; lia. }
  assert (Hc : Tabs.count (Tabs.removeTab (Tabs.count w) (stop_page g1 (Tabs.count w) w1))
               = Tabs.count w).
  { rewrite removeTab_count, stop_page_count, Hrange. lia. }
  rewrite Hc. destruct (Z.eqb_spec (Tabs.count w) 0); [lia|].
  cbn [snd Tabs.self Tabs.glob]. split; [|reflexivity].
  unfold Tabs.removeTab. rewrite stop_page_count, Hrange. cbn [Tabs.tabs].
  unfold stop_page.
  destruct (Tabs.widget (Tabs.count w) w1) as [tb|]; unfold Tabs.set_tabs;
    cbn [Tabs.tabs]; rewrite ?remove_nth_list_set;
    unfold w1, after_add, Tabs.count; cbn [Tabs.self Tabs.tabs];
    rewrite Nat2Z.id; apply remove_nth_last.
Qed.

Lemma add_then_close_restores_tabs_witness :
  Tabs.tabs (Tabs.self one_tab) <> [] /\
  labels (Tabs.self (snd (Tabs._close_tab 1 two_tabs))) = ["PowerShell 1"].
Proof.
  split; [discriminate|].
  exact (f_equal (map Tabs.label)
           (proj1 (@add_then_close_restores_tabs "cmd.exe" (Tabs.self one_tab)
                     (Tabs.glob one_tab) ltac:(discriminate)))).
Defined.
